(** * Rancher client of minimal-mcp-v2: retry wrapper, paged listing,
      cluster resolution and the two tool projections.

    The embedding follows [rancher_client.py] and [tools/rancher_tools.py].
    The remote service is a scripted transport: a list of outcomes handed out
    one per call of [client.request], together with a log of the requests
    made and of the delays slept.  Exceptions are values of [exc]; every
    method is a function from the world to a result and a new world. *)

From Stdlib Require Import ZArith QArith List String Ascii Bool Lia DecimalString.
Import ListNotations.

Set Warnings "-register-all".

Local Open Scope string_scope.
Local Open Scope Z_scope.

(** ** JSON payloads, with the Python operations the code applies to them

    A decoded payload: [None], booleans, integers, strings, lists and dicts.
    A dict is an association list read by its first entry for a key (a
    decoded object has no repeated keys).  Numbers that are not integers
    are left out: the client reads none. *)

Inductive json : Type :=
| JNull
| JBool (b : bool)
| JNum (n : Z)
| JStr (s : string)
| JArr (items : list json)
| JObj (fields : list (string * json)).

(** [httpx.Response]: the status code and the decoded body ([None] when the
    body is not JSON). *)
Record response : Type := mkResponse {
  status_code : Z;
  body : option json
}.

Inductive exc : Type :=
| TransportError (msg : string)
| HTTPStatusError (msg : string) (resp : response)
| AssertionError (msg : string)
| ValueError (msg : string)
| AttributeError (msg : string)
| TypeError (msg : string)
| JSONDecodeError
| StopAsyncIteration
| OtherError (msg : string)
| OverflowError (msg : string).

Inductive res (A : Type) : Type :=
| Ok (a : A)
| Raise (e : exc).
Arguments Ok {A} a.
Arguments Raise {A} e.

(** Python truthiness ([if x], [x or y], [not x]). *)
Definition truthy (v : json) : bool :=
  match v with
  | JNull => false
  | JBool b => b
  | JNum n => negb (n =? 0)
  | JStr s => negb (s =? "")%string
  | JArr l => match l with [] => false | _ => true end
  | JObj kv => match kv with [] => false | _ => true end
  end.

(** [a or b] *)
Definition py_or (a b : json) : json := if truthy a then a else b.

Fixpoint assoc (k : string) (kv : list (string * json)) : option json :=
  match kv with
  | [] => None
  | (k', v) :: kv' => if (k =? k')%string then Some v else assoc k kv'
  end.

(** [d.get(k, default)]; only a dict has [get]. *)
Definition dict_get_default (d : json) (k : string) (default : json) : res json :=
  match d with
  | JObj kv => Ok (match assoc k kv with Some v => v | None => default end)
  | _ => Raise (AttributeError "get")
  end.

(** [d.get(k)] *)
Definition dict_get (d : json) (k : string) : res json :=
  dict_get_default d k JNull.

Fixpoint chars (s : string) : list json :=
  match s with
  | EmptyString => []
  | String c s' => JStr (String c EmptyString) :: chars s'
  end.

(** [for x in v]: a list gives its elements, a dict its keys, a string its
    characters; nothing else is iterable. *)
Definition py_iter (v : json) : res (list json) :=
  match v with
  | JArr l => Ok l
  | JObj kv => Ok (map (fun p => JStr (fst p)) kv)
  | JStr s => Ok (chars s)
  | _ => Raise (TypeError "object is not iterable")
  end.

(** [len(v)] *)
Definition py_len (v : json) : res nat :=
  match v with
  | JArr l => Ok (List.length l)
  | JObj kv => Ok (List.length kv)
  | JStr s => Ok (String.length s)
  | _ => Raise (TypeError "object has no len()")
  end.

(** [v == s] for a string [s]. *)
Definition eq_str (v : json) (s : string) : bool :=
  match v with
  | JStr s' => (s' =? s)%string
  | _ => false
  end.

(** [s.lstrip("/")] *)
Fixpoint lstrip_slash (s : string) : string :=
  match s with
  | String c s' => if (c =? "/")%char then lstrip_slash s' else s
  | EmptyString => EmptyString
  end.

(** [sub in s] *)
Fixpoint contains (sub s : string) : bool :=
  if String.prefix sub s then true
  else match s with
       | EmptyString => false
       | String _ s' => contains sub s'
       end.

(** [s.startswith(p)] *)
Definition startswith (p s : string) : bool := String.prefix p s.

(** [str(n)] for a natural number, as an f-string prints it. *)
Definition str_of_nat (n : nat) : string :=
  DecimalString.NilZero.string_of_uint (Nat.to_uint n).

(** ** The scripted world *)

(** [httpx.AsyncClient] as built by [start]. *)
Inductive verify_mode : Type :=
| VerifyDefault
| VerifyBundle (path : string).

Record AsyncClient : Type := mkClient {
  client_id : nat;
  client_base_url : string;
  client_headers : list (string * string);
  client_timeout : Q;
  client_verify : verify_mode
}.

Record request : Type := mkRequest {
  req_client : nat;
  req_method : string;
  req_url : string;
  req_params : option (list (string * Z))
}.

Inductive outcome : Type :=
| Respond (r : response)
| Fail (e : exc).

Record world : Type := mkWorld {
  script : list outcome;
  requests : list request;
  sleeps : list Q;
  clients_created : nat;
  clients_closed : list nat
}.

Definition M (A : Type) : Type := world -> res A * world.

Definition ret {A} (a : A) : M A := fun w => (Ok a, w).
Definition raise {A} (e : exc) : M A := fun w => (Raise e, w).
Definition bind {A B} (m : M A) (f : A -> M B) : M B :=
  fun w => match m w with
           | (Ok a, w') => f a w'
           | (Raise e, w') => (Raise e, w')
           end.
Definition lift {A} (r : res A) : M A := fun w => (r, w).

Notation "x <- m ;; k" := (bind m (fun x => k))
  (at level 61, m at next level, right associativity).

(** [await self._client.request(method, url, **kwargs)] against the script.
    httpx refuses a url that is not a string with a TypeError before anything
    is sent; otherwise the call is logged and the next outcome is consumed.
    An exhausted script raises as an exhausted mock does. *)
Definition client_request (c : AsyncClient) (method : string) (url : json)
    (params : option (list (string * Z))) : M response :=
  fun w =>
    match url with
    | JStr u =>
        let log := (requests w ++ [mkRequest (client_id c) method u params])%list in
        match script w with
        | [] =>
            (Raise StopAsyncIteration,
             mkWorld [] log (sleeps w) (clients_created w) (clients_closed w))
        | Respond r :: rest =>
            (Ok r, mkWorld rest log (sleeps w) (clients_created w) (clients_closed w))
        | Fail e :: rest =>
            (Raise e, mkWorld rest log (sleeps w) (clients_created w) (clients_closed w))
        end
    | _ => (Raise (TypeError "Invalid type for url"), w)
    end.

(** [await asyncio.sleep(d)] *)
Definition sleep (d : Q) : M unit :=
  fun w =>
    (Ok tt, mkWorld (script w) (requests w) (sleeps w ++ [d])%list
                    (clients_created w) (clients_closed w)).

(** ** rancher_client.py *)

Record AsyncRancher : Type := mkRancher {
  base_url : string;
  token : string;
  ca_bundle : option string;
  timeout : Q;
  max_retries : Z;
  _client : option AsyncClient
}.

Definition set_client (self : AsyncRancher) (c : option AsyncClient) : AsyncRancher :=
  mkRancher (base_url self) (token self) (ca_bundle self) (timeout self)
            (max_retries self) c.

(** [AsyncRancher.__init__] *)
Definition init (base_url token : string) (ca_bundle : option string)
    (timeout : Q) (max_retries : Z) : AsyncRancher :=
  mkRancher base_url token ca_bundle timeout max_retries None.

(** [AsyncRancher.start] *)
Definition start (self : AsyncRancher) (w : world) : AsyncRancher * world :=
  match _client self with
  | None =>
      let headers := [("Authorization", "Bearer " ++ token self)] in
      let verify := match ca_bundle self with
                    | Some p => if (p =? "")%string then VerifyDefault else VerifyBundle p
                    | None => VerifyDefault
                    end in
      let c := mkClient (clients_created w) (base_url self) headers (timeout self) verify in
      (set_client self (Some c),
       mkWorld (script w) (requests w) (sleeps w) (S (clients_created w))
               (clients_closed w))
  | Some _ => (self, w)
  end.

(** [AsyncRancher.close] *)
Definition close (self : AsyncRancher) (w : world) : AsyncRancher * world :=
  match _client self with
  | Some c =>
      (set_client self None,
       mkWorld (script w) (requests w) (sleeps w) (clients_created w)
               (clients_closed w ++ [client_id c])%list)
  | None => (self, w)
  end.

Definition retryable_status (s : Z) : bool :=
  (s =? 429) || (s =? 500) || (s =? 502) || (s =? 503) || (s =? 504).

(** [except (httpx.TransportError, httpx.HTTPStatusError)] *)
Definition caught (e : exc) : bool :=
  match e with
  | TransportError _ | HTTPStatusError _ _ => true
  | _ => false
  end.

(** The value of the delay of an attempt, [0.25 * 2 ^ (attempt - 1)]
    seconds.  The loop counts its attempts from 1, so the exponent is never
    negative. *)
Definition backoff (attempt : Z) : Q := ((1 # 4) * inject_Z (2 ^ (attempt - 1)))%Q.

(** The largest [k] for which Python converts the int [2 ** k] to a float:
    [2 ** 1024] is beyond the doubles. *)
Definition max_float_exponent : Z := 1023.

(** The expression [0.25 * (2 ** (attempt - 1))] as Python evaluates it:
    the int [2 ** (attempt - 1)] is converted to a float for the product,
    which raises OverflowError from [2 ** 1024] on, that is from attempt
    1025 on; below that the product is exact and is [backoff attempt]. *)
Definition sleep_delay (attempt : Z) : res Q :=
  if attempt - 1 <=? max_float_exponent
  then Ok (backoff attempt)
  else Raise (OverflowError "int too large to convert to float").

(** The [for attempt in range(1, self.max_retries + 1)] loop of [_request],
    with [n] iterations left, followed by [assert last_exc; raise last_exc].
    An error raised inside the [except] block, as the OverflowError of the
    delay, leaves the function. *)
Fixpoint request_attempts (c : AsyncClient) (method : string) (url : json)
    (params : option (list (string * Z)))
    (n : nat) (attempt : Z) (last_exc : option exc) : M response :=
  match n with
  | O =>
      match last_exc with
      | Some e => raise e
      | None => raise (AssertionError "")
      end
  | S n' =>
      fun w =>
        let handler (e : exc) (w1 : world) :=
          match sleep_delay attempt with
          | Ok d =>
              request_attempts c method url params n' (attempt + 1) (Some e)
                               (snd (sleep d w1))
          | Raise overflow => (Raise overflow, w1)
          end in
        match client_request c method url params w with
        | (Ok resp, w1) =>
            if retryable_status (status_code resp)
            then handler (HTTPStatusError "retryable status" resp) w1
            else (Ok resp, w1)
        | (Raise e, w1) =>
            if caught e then handler e w1 else (Raise e, w1)
        end
  end.

(** [AsyncRancher._request] *)
Definition _request (self : AsyncRancher) (method : string) (url : json)
    (params : option (list (string * Z))) : M response :=
  match _client self with
  | None => raise (AssertionError "Client not started")
  | Some c =>
      request_attempts c method url params (Z.to_nat (max_retries self)) 1 None
  end.

(** [resp.raise_for_status()]: httpx raises unless the status is 2xx. *)
Definition is_success (s : Z) : bool := (200 <=? s) && (s <? 300).

Definition raise_for_status (resp : response) : res unit :=
  if is_success (status_code resp) then Ok tt
  else Raise (HTTPStatusError "raise_for_status" resp).

(** [resp.json()] *)
Definition resp_json (resp : response) : res json :=
  match body resp with
  | Some j => Ok j
  | None => Raise JSONDecodeError
  end.

(** The async generator [rancher_list_all], suspended: about to fetch [url]
    with [params] (top of the [while True]), inside the [for item in items]
    with the items still to yield, or finished. *)
Inductive gen_state : Type :=
| GenFetch (url : json) (params : list (string * Z))
| GenItems (pending : list json) (data : json)
| GenDone.

Inductive gen_event : Type :=
| Yield (item : json)
| Resume
| Stop
| Throw (e : exc).

(** How an [async for] body leaves an iteration, and how the loop ends:
    [Continue s] falls through (the loop ran to the end with state [s]),
    [Return r] returns [r] from the enclosing function. *)
Inductive ctl (S R : Type) : Type :=
| Continue (s : S)
| Return (r : R).
Arguments Continue {S R} s.
Arguments Return {S R} r.

Record Settings : Type := mkSettings {
  RANCHER_URL : string;
  RANCHER_TOKEN : string;
  RANCHER_CA_BUNDLE : option string;
  HTTP_TIMEOUT : Q;
  MAX_RETRIES : Z
}.

(** The module state of [rancher_client]: the loaded settings, the global
    [_rancher_singleton], and the world. *)
Record process : Type := mkProcess {
  settings : Settings;
  _rancher_singleton : option AsyncRancher;
  env : world
}.

(** ** Vocabulary of the statements *)

(** A retryable failure: a response with a retryable status, or a transport
    error. *)
Definition retryable_failure (o : outcome) : bool :=
  match o with
  | Respond r => retryable_status (status_code r)
  | Fail (TransportError _) => true
  | Fail _ => false
  end.

(** The exception [_request] records for a failed attempt. *)
Definition failure_exc (o : outcome) : exc :=
  match o with
  | Respond r => HTTPStatusError "retryable status" r
  | Fail e => e
  end.

(** [last_exc] after the failed attempts [fs]. *)
Definition last_failure (fs : list outcome) (last : option exc) : option exc :=
  fold_left (fun _ o => Some (failure_exc o)) fs last.

(** The attempt numbers [from, from + 1, ...], [k] of them. *)
Fixpoint attempts (from : Z) (k : nat) : list Z :=
  match k with
  | O => []
  | Datatypes.S k' => from :: attempts (from + 1) k'
  end.

(** The world after [reqs] were sent and [delays] slept, with [rest] left
    of the script. *)
Definition advance (w : world) (rest : list outcome) (reqs : list request)
    (delays : list Q) : world :=
  mkWorld rest (requests w ++ reqs)%list (sleeps w ++ delays)%list
          (clients_created w) (clients_closed w).

(** ** config.py *)

(** [s.rstrip("/")] *)
Fixpoint rstrip_slash (s : string) : string :=
  match s with
  | EmptyString => EmptyString
  | String c s' =>
      match rstrip_slash s' with
      | EmptyString =>
          if (c =? "/")%char then EmptyString else String c EmptyString
      | r => String c r
      end
  end.

(** [os.environ] *)
Definition environ : Type := string -> option string.

(** [os.environ.get(k, default)] *)
Definition environ_get (e : environ) (k default : string) : string :=
  match e k with
  | Some v => v
  | None => default
  end.

(** What [Settings()] raises: the ValueError of [float] or [int] on the
    named variable, or the RuntimeError of the final test. *)
Inductive config_error : Type :=
| ConfigValueError (variable : string)
| ConfigRuntimeError (msg : string).

Section Config.

(** Python's [float] and [int] on a string, [None] where they raise
    ValueError.  The timeout is kept as the rational the float holds; the
    values [inf] and [nan] that [float] also accepts have none. *)
Variable py_float : string -> option Q.
Variable py_int : string -> option Z.

(** [Settings.__init__]: the five reads in their order, then the test. *)
Definition Settings_init (e : environ) : Settings + config_error :=
  let url := rstrip_slash (environ_get e "RANCHER_URL" "") in
  let tok := environ_get e "RANCHER_TOKEN" "" in
  let bundle := e "RANCHER_CA_BUNDLE" in
  match py_float (environ_get e "HTTP_TIMEOUT" "15") with
  | None => inr (ConfigValueError "HTTP_TIMEOUT")
  | Some http_timeout =>
      match py_int (environ_get e "MAX_RETRIES" "3") with
      | None => inr (ConfigValueError "MAX_RETRIES")
      | Some retries =>
          if (url =? "")%string || (tok =? "")%string
          then inr (ConfigRuntimeError "RANCHER_URL and RANCHER_TOKEN must be set")
          else inl (mkSettings url tok bundle http_timeout retries)
      end
  end.

End Config.

(** A string made of [k] slashes. *)
Fixpoint slashes (k : nat) : string :=
  match k with
  | O => EmptyString
  | Datatypes.S k' => String "/" (slashes k')
  end.

(** The last character of a string is a slash. *)
Fixpoint ends_with_slash (s : string) : bool :=
  match s with
  | EmptyString => false
  | String c EmptyString => (c =? "/")%char
  | String _ s' => ends_with_slash s'
  end.

(** ** Data for concrete runs *)

Fixpoint strip_trailing_slash (s : string) : string :=
  match s with
  | EmptyString => EmptyString
  | String c s' =>
      match s' with
      | EmptyString => if (c =? "/")%char then EmptyString else s
      | _ => String c (strip_trailing_slash s')
      end
  end.

(** What [urljoin] gives for a base without a path and a plain path: the
    path is put behind the origin.  Used to run the definitions only. *)
Definition simple_join (base rel : string) : string :=
  if String.prefix "/" rel then strip_trailing_slash base ++ rel
  else base ++ rel.

(** A [repr] to run the definitions: it is not reached when ids are
    strings. *)
Definition no_repr (v : json) : string := "<repr>".

Definition demo_client : AsyncClient :=
  mkClient 0 "https://rancher.example.com"
           [("Authorization", "Bearer tok123")] (15 # 1) VerifyDefault.

Definition demo_rancher : AsyncRancher :=
  mkRancher "https://rancher.example.com" "tok123" None (15 # 1) 3
            (Some demo_client).

Definition demo_settings : Settings :=
  mkSettings "https://rancher.example.com" "tok123" None (15 # 1) 3.

(** The world of a started client, and a process that has not acquired the
    singleton yet, each facing the script [s]. *)
Definition started_world (s : list outcome) : world := mkWorld s [] [] 1 [].

Definition initial_process (s : list outcome) : process :=
  mkProcess demo_settings None (mkWorld s [] [] 0 []).

Definition ok_json (j : json) : response := mkResponse 200 (Some j).

Definition page_json (items : list json) (next : option string) : json :=
  JObj (("data", JArr items) ::
        match next with
        | Some u => [("links", JObj [("next", JStr u)])]
        | None => []
        end).

Definition cluster (id name : string) : json :=
  JObj [("id", JStr id); ("name", JStr name); ("state", JStr "active")].

Definition demo_link2 : string := "https://rancher.example.com/v3/clusters?marker=c-aaa01".
Definition demo_link3 : string := "https://rancher.example.com/v3/clusters?marker=c-bbb02".

Definition demo_items1 : list json := [cluster "c-aaa01" "dev"].
Definition demo_items2 : list json :=
  [cluster "c-abc12" "prod"; cluster "c-bbb02" "staging"].
Definition demo_items3 : list json := [JObj [("name", JStr "bare")]].

Definition demo_page1 : response := ok_json (page_json demo_items1 (Some demo_link2)).
Definition demo_page2 : response := ok_json (page_json demo_items2 (Some demo_link3)).
Definition demo_page3 : response := ok_json (page_json demo_items3 None).

Definition demo_pods : response :=
  ok_json (JObj [("items", JArr [])]).

(** A listing in which a cluster named "prod" without id comes before one
    with an id, and one in which the only cluster named "prod" has none. *)
Definition prod_without_id : json := JObj [("name", JStr "prod")].
Definition prod_with_id : json := cluster "c-abc12" "prod".

Definition demo_page_two_prods : response :=
  ok_json (page_json [prod_without_id; prod_with_id] None).
Definition demo_page_prod_no_id : response :=
  ok_json (page_json [prod_without_id] None).

(** A cluster record with a top-level [kubernetesVersion], and one with the
    version where Rancher puts it. *)
Definition cluster_top_level_version : json :=
  JObj [("id", JStr "c-aaa01"); ("kubernetesVersion", JStr "v1.27.1")].
Definition cluster_rke_version : json :=
  JObj [("id", JStr "c-aaa01");
        ("rancherKubernetesEngineConfig",
         JObj [("kubernetesVersion", JStr "v1.27.1")])].

(** An environment with a base URL that ends in slashes, and parsers that
    know the two default literals. *)
Definition demo_environ : environ :=
  fun k =>
    if (k =? "RANCHER_URL")%string then Some "https://rancher.example.com//"
    else if (k =? "RANCHER_TOKEN")%string then Some "tok123"
    else None.

Definition demo_float (s : string) : option Q :=
  if (s =? "15")%string then Some (15 # 1) else None.

Definition demo_int (s : string) : option Z :=
  if (s =? "3")%string then Some 3 else None.

(** A process whose singleton is started, facing the script [s]. *)
Definition started_process (s : list outcome) : process :=
  mkProcess demo_settings (Some demo_rancher) (started_world s).

(** An instance that cannot attempt anything. *)
Definition no_retry_rancher : AsyncRancher :=
  mkRancher "https://rancher.example.com" "tok123" None (15 # 1) 0
            (Some demo_client).

(** The started instance with another retry budget, and a server that
    answers 503 [k] times. *)
Definition retrying_rancher (budget : Z) : AsyncRancher :=
  mkRancher "https://rancher.example.com" "tok123" None (15 # 1) budget
            (Some demo_client).

Definition failures_503 (k : nat) : list outcome :=
  repeat (Respond (mkResponse 503 None)) k.

(** A process whose singleton cannot attempt anything. *)
Definition no_retry_process (s : list outcome) : process :=
  mkProcess demo_settings (Some no_retry_rancher) (started_world s).

(** No variable set. *)
Definition empty_environ : environ := fun _ => None.

(** A page whose payload has neither items nor links. *)
Definition page_without_data : response :=
  ok_json (JObj [("type", JStr "collection")]).

Definition pod_null_status : json :=
  JObj [("metadata", JObj [("name", JStr "web-3")]); ("status", JNull)].

Definition resp_503 : response := mkResponse 503 None.
Definition resp_502 : response := mkResponse 502 None.
Definition resp_404 : response := mkResponse 404 None.

Section Client.

(** [urllib.parse.urljoin] and Python's [repr] of a value that is not a
    string are library code; the client only passes their results on. *)
Variable urljoin : string -> string -> string.
Variable py_repr : json -> string.

(** [str(v)], as an f-string formats [v]. *)
Definition py_str (v : json) : string :=
  match v with
  | JStr s => s
  | _ => py_repr v
  end.

(** [AsyncRancher.rancher_get] *)
Definition rancher_get (self : AsyncRancher) (path : string)
    (params : option (list (string * Z))) : M json :=
  let url := urljoin (base_url self ++ "/") (lstrip_slash path) in
  resp <- _request self "GET" (JStr url) params ;;
  _ <- lift (raise_for_status resp) ;;
  lift (resp_json resp).

(** [AsyncRancher.rancher_list_all]: calling it only builds the generator. *)
Definition rancher_list_all (self : AsyncRancher) (path : string) (page_size : Z)
  : gen_state :=
  GenFetch (JStr (urljoin (base_url self ++ "/") (lstrip_slash path)))
           [("limit", page_size)].

(** One page: request, [raise_for_status], decode, [data.get("data") or []]. *)
Definition fetch_page (self : AsyncRancher) (url : json)
    (params : list (string * Z)) : M (list json * json) :=
  resp <- _request self "GET" url (Some params) ;;
  _ <- lift (raise_for_status resp) ;;
  data <- lift (resp_json resp) ;;
  d <- lift (dict_get data "data") ;;
  items <- lift (py_iter (py_or d (JArr []))) ;;
  ret (items, data).

(** [(data.get("links") or {}).get("next")] *)
Definition next_link (data : json) : res json :=
  match dict_get data "links" with
  | Ok links => dict_get (py_or links (JObj [])) "next"
  | Raise e => Raise e
  end.

(** The generator body run from one suspension point to the next. *)
Definition gen_step (self : AsyncRancher) (g : gen_state)
  : world -> (gen_event * gen_state) * world :=
  fun w =>
    match g with
    | GenFetch url params =>
        match fetch_page self url params w with
        | (Ok (items, data), w') => ((Resume, GenItems items data), w')
        | (Raise e, w') => ((Throw e, GenDone), w')
        end
    | GenItems (item :: rest) data => ((Yield item, GenItems rest data), w)
    | GenItems [] data =>
        match next_link data with
        | Ok next_url =>
            if negb (truthy next_url) then ((Stop, GenDone), w)
            else ((Resume, GenFetch next_url []), w)
        | Raise e => ((Throw e, GenDone), w)
        end
    | GenDone => ((Stop, GenDone), w)
    end.

(** [async for item in g: body], the loop state threaded through [body];
    [None] only when the fuel is used up. *)
Fixpoint async_for {S R : Type} (fuel : nat) (self : AsyncRancher)
    (body : json -> S -> res (ctl S R)) (g : gen_state) (s : S) (w : world)
  : option (res (ctl S R)) * world :=
  match fuel with
  | O => (None, w)
  | Datatypes.S fuel' =>
      match gen_step self g w with
      | ((Yield item, g'), w') =>
          match body item s with
          | Ok (Continue s') => async_for fuel' self body g' s' w'
          | Ok (Return r) => (Some (Ok (Return r)), w')
          | Raise e => (Some (Raise e), w')
          end
      | ((Resume, g'), w') => async_for fuel' self body g' s w'
      | ((Stop, _), w') => (Some (Ok (Continue s)), w')
      | ((Throw e, _), w') => (Some (Raise e), w')
      end
  end.

(** The body of the loop in [resolve_cluster_id]. *)
Definition resolve_body (name_or_id : string) (c : json) (_ : unit)
  : res (ctl unit json) :=
  let found :=
    match dict_get c "id" with
    | Ok cid => if truthy cid then Ok (Return cid) else Ok (Continue tt)
    | Raise e => Raise e
    end in
  match dict_get c "name" with
  | Ok n =>
      if eq_str n name_or_id then found
      else match dict_get c "displayName" with
           | Ok d => if eq_str d name_or_id then found else Ok (Continue tt)
           | Raise e => Raise e
           end
  | Raise e => Raise e
  end.

(** [AsyncRancher.resolve_cluster_id] *)
Definition resolve_cluster_id (fuel : nat) (self : AsyncRancher)
    (name_or_id : string) (w : world) : option (res json) * world :=
  if contains ":" name_or_id || startswith "c-" name_or_id
  then (Some (Ok (JStr name_or_id)), w)
  else
    match async_for fuel self (resolve_body name_or_id)
                    (rancher_list_all self "/v3/clusters" 100) tt w with
    | (Some (Ok (Return cid)), w') => (Some (Ok cid), w')
    | (Some (Ok (Continue _)), w') =>
        (Some (Raise (ValueError ("Cluster not found: " ++ name_or_id))), w')
    | (Some (Raise e), w') => (Some (Raise e), w')
    | (None, w') => (None, w')
    end.

(** [AsyncRancher._k8s_base] *)
Definition _k8s_base (cluster_id : json) : string :=
  "/k8s/clusters/" ++ py_str cluster_id ++ "/".

(** [AsyncRancher.k8s_get] *)
Definition k8s_get (self : AsyncRancher) (cluster_id : json) (k8s_path : string)
    (params : option (list (string * Z))) : M json :=
  let base := _k8s_base cluster_id in
  let url := urljoin (base_url self ++ "/") (base ++ lstrip_slash k8s_path) in
  resp <- _request self "GET" (JStr url) params ;;
  _ <- lift (raise_for_status resp) ;;
  lift (resp_json resp).

(** [not namespace] *)
Definition not_namespace (namespace : option string) : bool :=
  match namespace with
  | None => true
  | Some ns => (ns =? "")%string
  end.

(** [f"{namespace}"] *)
Definition str_namespace (namespace : option string) : string :=
  match namespace with
  | Some ns => ns
  | None => "None"
  end.

(** The [path] computed in [list_pods]. *)
Definition pods_path (namespace : option string) : string :=
  if not_namespace namespace then "api/v1/pods"
  else "api/v1/namespaces/" ++ str_namespace namespace ++ "/pods".

(** [AsyncRancher.list_pods] *)
Definition list_pods (fuel : nat) (self : AsyncRancher) (cluster : string)
    (namespace : option string) (w : world) : option (res json) * world :=
  match resolve_cluster_id fuel self cluster w with
  | (Some (Ok cid), w') =>
      let path := pods_path namespace in
      let (r, w'') := k8s_get self cid path None w' in
      (Some r, w'')
  | (Some (Raise e), w') => (Some (Raise e), w')
  | (None, w') => (None, w')
  end.

(** [get_rancher] *)
Definition get_rancher (p : process) : AsyncRancher * process :=
  match _rancher_singleton p with
  | None =>
      let st := settings p in
      let fresh := init (RANCHER_URL st) (RANCHER_TOKEN st) (RANCHER_CA_BUNDLE st)
                        (HTTP_TIMEOUT st) (MAX_RETRIES st) in
      let (started, w) := start fresh (env p) in
      (started, mkProcess st (Some started) w)
  | Some r => (r, p)
  end.

(** [aclose_rancher] *)
Definition aclose_rancher (p : process) : process :=
  match _rancher_singleton p with
  | Some r =>
      let (_, w) := close r (env p) in
      mkProcess (settings p) None w
  | None => p
  end.

(** ** tools/rancher_tools.py *)

(** The dict appended for one cluster in [rancher_clusters]. *)
Definition cluster_info (c : json) : res json :=
  match dict_get c "id" with
  | Ok id =>
    match dict_get c "name" with
    | Ok name =>
      match dict_get c "displayName" with
      | Ok display =>
        match dict_get c "state" with
        | Ok state =>
          match dict_get c "rancherKubernetesEngineConfig" with
          | Ok rke =>
            match dict_get (py_or rke (JObj [])) "kubernetesVersion" with
            | Ok version =>
                Ok (JObj [("id", id); ("name", name); ("displayName", display);
                          ("state", state); ("version", version)])
            | Raise e => Raise e
            end
          | Raise e => Raise e
          end
        | Raise e => Raise e
        end
      | Raise e => Raise e
      end
    | Raise e => Raise e
    end
  | Raise e => Raise e
  end.

Definition clusters_body (c : json) (clusters : list json)
  : res (ctl (list json) (list json)) :=
  match cluster_info c with
  | Ok info => Ok (Continue (clusters ++ [info])%list)
  | Raise e => Raise e
  end.

(** [rancher_clusters] *)
Definition rancher_clusters (fuel : nat) (p : process)
  : option (res (list json)) * process :=
  let (client, p1) := get_rancher p in
  match async_for fuel client clusters_body
                  (rancher_list_all client "/v3/clusters" 100) [] (env p1) with
  | (Some (Ok (Continue clusters)), w) =>
      (Some (Ok clusters), mkProcess (settings p1) (_rancher_singleton p1) w)
  | (Some (Ok (Return clusters)), w) =>
      (Some (Ok clusters), mkProcess (settings p1) (_rancher_singleton p1) w)
  | (Some (Raise e), w) =>
      (Some (Raise e), mkProcess (settings p1) (_rancher_singleton p1) w)
  | (None, w) => (None, mkProcess (settings p1) (_rancher_singleton p1) w)
  end.

(** [sum(1 for c in cs if c.get('ready'))] over the iterated statuses. *)
Fixpoint count_ready (cs : list json) : res nat :=
  match cs with
  | [] => Ok O
  | c :: cs' =>
      match dict_get c "ready" with
      | Ok r =>
          match count_ready cs' with
          | Ok n => Ok (if truthy r then Datatypes.S n else n)
          | Raise e => Raise e
          end
      | Raise e => Raise e
      end
  end.

(** [pod.get(outer, {}).get(inner)] *)
Definition get2 (pod : json) (outer inner : string) : res json :=
  match dict_get_default pod outer (JObj []) with
  | Ok o => dict_get o inner
  | Raise e => Raise e
  end.

(** [pod.get(outer, {}).get(inner, [])] *)
Definition get2_list (pod : json) (outer inner : string) : res json :=
  match dict_get_default pod outer (JObj []) with
  | Ok o => dict_get_default o inner (JArr [])
  | Raise e => Raise e
  end.

(** The f-string of the ["ready"] entry. *)
Definition ready_ratio (pod : json) : res string :=
  match get2_list pod "status" "containerStatuses" with
  | Ok cs =>
    match py_iter cs with
    | Ok l =>
      match count_ready l with
      | Ok ready =>
        match get2_list pod "status" "containerStatuses" with
        | Ok cs' =>
          match py_len cs' with
          | Ok total => Ok (str_of_nat ready ++ "/" ++ str_of_nat total)
          | Raise e => Raise e
          end
        | Raise e => Raise e
        end
      | Raise e => Raise e
      end
    | Raise e => Raise e
    end
  | Raise e => Raise e
  end.

(** The [pod_info] dict of [k8s_pods]. *)
Definition pod_info (pod : json) : res json :=
  match get2 pod "metadata" "name" with
  | Ok name =>
    match get2 pod "metadata" "namespace" with
    | Ok ns =>
      match ready_ratio pod with
      | Ok ready =>
        match get2 pod "status" "phase" with
        | Ok phase =>
          match get2 pod "metadata" "creationTimestamp" with
          | Ok age =>
              Ok (JObj [("name", name); ("namespace", ns); ("ready", JStr ready);
                        ("status", phase); ("age", age)])
          | Raise e => Raise e
          end
        | Raise e => Raise e
        end
      | Raise e => Raise e
      end
    | Raise e => Raise e
    end
  | Raise e => Raise e
  end.

(** The [for pod in response.get("items", [])] loop. *)
Fixpoint pods_loop (items : list json) (pods : list json) : res (list json) :=
  match items with
  | [] => Ok pods
  | pod :: rest =>
      match pod_info pod with
      | Ok info => pods_loop rest (pods ++ [info])%list
      | Raise e => Raise e
      end
  end.

Definition project_pods (response : json) : res (list json) :=
  match dict_get_default response "items" (JArr []) with
  | Ok items =>
      match py_iter items with
      | Ok l => pods_loop l []
      | Raise e => Raise e
      end
  | Raise e => Raise e
  end.

(** [k8s_pods] *)
Definition k8s_pods (fuel : nat) (p : process) (cluster : string)
    (namespace : option string) : option (res (list json)) * process :=
  let (client, p1) := get_rancher p in
  match list_pods fuel client cluster namespace (env p1) with
  | (Some (Ok response), w) =>
      (Some (project_pods response),
       mkProcess (settings p1) (_rancher_singleton p1) w)
  | (Some (Raise e), w) =>
      (Some (Raise e), mkProcess (settings p1) (_rancher_singleton p1) w)
  | (None, w) => (None, mkProcess (settings p1) (_rancher_singleton p1) w)
  end.

(** ** Vocabulary of the listing statements *)

(** [[x async for x in g]]: the loop body that collects what [g] yields. *)
Definition collect_body (item : json) (acc : list json)
  : res (ctl (list json) unit) :=
  Ok (Continue (acc ++ [item])%list).

Definition list_all (fuel : nat) (self : AsyncRancher) (path : string)
    (page_size : Z) (w : world) : option (res (ctl (list json) unit)) * world :=
  async_for fuel self collect_body (rancher_list_all self path page_size) [] w.

(** A loop body run over a list of items, up to the first iteration that
    returns or raises. *)
Fixpoint run_body {S R : Type} (body : json -> S -> res (ctl S R))
    (items : list json) (s : S) : res (ctl S R) :=
  match items with
  | [] => Ok (Continue s)
  | x :: xs =>
      match body x s with
      | Ok (Continue s') => run_body body xs s'
      | other => other
      end
  end.

(** [r] is a page: a 2xx response whose payload carries the item list
    [items] under "data" and whose next link reads [next]. *)
Inductive page_of (items : list json) (next : json) : response -> Prop :=
| page_intro status data :
    is_success status = true ->
    dict_get data "data" = Ok (JArr items) ->
    next_link data = Ok next ->
    page_of items next (mkResponse status (Some data)).

(** Pages that each carry a next link: the responses, the items of each
    page, and the links. *)
Inductive linked_pages : list response -> list (list json) -> list string -> Prop :=
| linked_nil : linked_pages [] [] []
| linked_cons r items u rs itemss us :
    page_of items (JStr u) r ->
    u <> "" ->
    linked_pages rs itemss us ->
    linked_pages (r :: rs) (items :: itemss) (u :: us).

(** The requests of a listing that starts at [u0] with [params] and then
    follows the links [us]. *)
Definition page_request (cid : nat) (u : string) (params : list (string * Z))
  : request :=
  mkRequest cid "GET" u (Some params).

Definition page_requests (cid : nat) (u0 : string) (params : list (string * Z))
    (us : list string) : list request :=
  page_request cid u0 params :: map (fun u => page_request cid u []) us.

(** The same walk cut before its last request, and where it then stands. *)
Fixpoint walk_requests (cid : nat) (u0 : string) (params : list (string * Z))
    (us : list string) : list request :=
  match us with
  | [] => []
  | u :: us' => page_request cid u0 params :: walk_requests cid u [] us'
  end.

Fixpoint walk_end (u0 : string) (params : list (string * Z)) (us : list string)
  : string * list (string * Z) :=
  match us with
  | [] => (u0, params)
  | u :: us' => walk_end u [] us'
  end.

(** [c.get(k)] read off a record: the field, [None] when it is missing. *)
Definition field (c : json) (k : string) : json :=
  match c with
  | JObj kv => match assoc k kv with Some v => v | None => JNull end
  | _ => JNull
  end.

Definition is_object (c : json) : bool :=
  match c with
  | JObj _ => true
  | _ => false
  end.

(** The cluster's name or displayName equals the input. *)
Definition names_match (name : string) (c : json) : bool :=
  eq_str (field c "name") name || eq_str (field c "displayName") name.

(** The cluster is the one resolution picks: it matches and has an id. *)
Definition selected (name : string) (c : json) : bool :=
  names_match name c && truthy (field c "id").

(** The input is taken for an id. *)
Definition looks_like_id (s : string) : bool :=
  contains ":" s || startswith "c-" s.

(** The steps of the generator that a listing of [pages] pages holding
    [items] items takes: a fetch and a look at the link per page, a yield
    per item. *)
Definition listing_steps (pages items : nat) : nat := (2 * pages + items)%nat.

(** A cluster record as the listing is expected to give it: an object whose
    [rancherKubernetesEngineConfig], when it is there, is an object or
    empty. *)
Definition well_shaped_cluster (c : json) : bool :=
  is_object c &&
  (is_object (field c "rancherKubernetesEngineConfig") ||
   negb (truthy (field c "rancherKubernetesEngineConfig"))).

(** The projection of a cluster as the specification words it: the fields
    id, name, displayName, state and kubernetesVersion of the record, each
    [None] when the record lacks it. *)
Definition stated_cluster_record (c : json) : json :=
  JObj [("id", field c "id");
        ("name", field c "name");
        ("displayName", field c "displayName");
        ("state", field c "state");
        ("kubernetesVersion", field c "kubernetesVersion")].

(** The projection with the version where the code reads and stores it:
    read from [rancherKubernetesEngineConfig.kubernetesVersion], stored
    under the key ["version"]. *)
Definition project_cluster (c : json) : json :=
  JObj [("id", field c "id");
        ("name", field c "name");
        ("displayName", field c "displayName");
        ("state", field c "state");
        ("version",
         field (field c "rancherKubernetesEngineConfig") "kubernetesVersion")].

(** The container statuses of a pod as the specification words them: none
    when the pod has no status or the status has no [containerStatuses];
    undefined when either has another shape than the API gives it. *)
Definition container_statuses (pod : json) : option (list json) :=
  match pod with
  | JObj kv =>
      match assoc "status" kv with
      | None => Some []
      | Some (JObj st) =>
          match assoc "containerStatuses" st with
          | None => Some []
          | Some (JArr cs) => Some cs
          | Some _ => None
          end
      | Some _ => None
      end
  | _ => None
  end.

(** The count of ready containers. *)
Definition ready_count (cs : list json) : nat :=
  List.length (filter (fun c => truthy (field c "ready")) cs).

Definition container (ready : bool) : json := JObj [("ready", JBool ready)].

(** A pod with two of its three containers ready, one whose status has no
    [containerStatuses], and one without status. *)
Definition pod_two_of_three : json :=
  JObj [("metadata", JObj [("name", JStr "web-0")]);
        ("status",
         JObj [("phase", JStr "Running");
               ("containerStatuses",
                JArr [container true; container false; container true])])].

Definition pod_no_statuses : json :=
  JObj [("metadata", JObj [("name", JStr "web-1")]);
        ("status", JObj [("phase", JStr "Pending")])].

Definition pod_no_status : json :=
  JObj [("metadata", JObj [("name", JStr "web-2")])].

(** ** Vocabulary of the further statements *)

(** The entry [k] of a record is missing or is an object: what
    [pod.get(k, {})] can be asked a [get] on. *)
Definition absent_or_object (pod : json) (k : string) : bool :=
  match pod with
  | JObj kv =>
      match assoc k kv with
      | None => true
      | Some (JObj _) => true
      | Some _ => false
      end
  | _ => false
  end.

(** A pod as the Kubernetes API gives it. *)
Definition well_shaped_pod (pod : json) : bool :=
  absent_or_object pod "metadata" &&
  match container_statuses pod with
  | Some cs => forallb is_object cs
  | None => false
  end.

(** The ready text of a pod, read off its container statuses. *)
Definition ready_text (pod : json) : string :=
  match container_statuses pod with
  | Some cs => str_of_nat (ready_count cs) ++ "/" ++ str_of_nat (List.length cs)
  | None => ""
  end.

(** The record of a pod: each entry [None] when the pod lacks it. *)
Definition project_pod (pod : json) : json :=
  JObj [("name", field (field pod "metadata") "name");
        ("namespace", field (field pod "metadata") "namespace");
        ("ready", JStr (ready_text pod));
        ("status", field (field pod "status") "phase");
        ("age", field (field pod "metadata") "creationTimestamp")].

(** The singleton, when there is one, holds a started client. *)
Definition singleton_started (p : process) : bool :=
  match _rancher_singleton p with
  | Some r => match _client r with Some _ => true | None => false end
  | None => true
  end.

(** A response that [_request] returns and [raise_for_status] refuses. *)
Definition final_error (r : response) : bool :=
  negb (retryable_status (status_code r)) && negb (is_success (status_code r)).

(** Two worlds hold the same clients: none was created or closed between
    them. *)
Definition same_clients (w w' : world) : Prop :=
  clients_created w' = clients_created w /\
  clients_closed w' = clients_closed w.

(** ** The retry wrapper *)

Lemma advance_advance w rest1 reqs1 ds1 rest2 reqs2 ds2 :
  advance (advance w rest1 reqs1 ds1) rest2 reqs2 ds2 =
  advance w rest2 (reqs1 ++ reqs2)%list (ds1 ++ ds2)%list.
Proof.
  unfold advance; simpl. now rewrite <- !app_assoc.
Qed.

Lemma advance_id w : advance w (script w) [] [] = w.
Proof.
  destruct w; unfold advance; simpl. now rewrite !app_nil_r.
Qed.

Lemma retryable_failure_caught e :
  retryable_failure (Fail e) = true -> caught e = true.
Proof. destruct e; simpl; congruence. Qed.

Lemma sleep_delay_ok attempt :
  attempt <= 1024 -> sleep_delay attempt = Ok (backoff attempt).
Proof.
  intros H. unfold sleep_delay, max_float_exponent.
  destruct (Z.leb_spec (attempt - 1) 1023); [reflexivity | lia].
Qed.

Lemma sleep_delay_overflow attempt :
  1025 <= attempt ->
  sleep_delay attempt = Raise (OverflowError "int too large to convert to float").
Proof.
  intros H. unfold sleep_delay, max_float_exponent.
  destruct (Z.leb_spec (attempt - 1) 1023); [lia | reflexivity].
Qed.

(** One failed attempt, up to attempt 1024: the request is logged, the
    delay of this attempt is slept, and the loop goes on with the failure
    recorded. *)
Lemma request_attempts_fail c method u params n attempt last o rest w :
  retryable_failure o = true ->
  attempt <= 1024 ->
  script w = o :: rest ->
  request_attempts c method (JStr u) params (S n) attempt last w =
  request_attempts c method (JStr u) params n (attempt + 1) (Some (failure_exc o))
    (advance w rest [mkRequest (client_id c) method u params] [backoff attempt]).
Proof.
  intros Ho Ha Hs. cbn [request_attempts]. unfold client_request.
  rewrite Hs, (sleep_delay_ok attempt Ha).
  destruct o as [r | e]; simpl in Ho.
  - cbv beta iota. rewrite Ho. reflexivity.
  - cbv beta iota. rewrite (retryable_failure_caught e Ho). reflexivity.
Qed.

(** One failed attempt from attempt 1025 on: the request is logged, the
    delay cannot be computed and its OverflowError ends the call. *)
Lemma request_attempts_overflow c method u params n attempt last o rest w :
  retryable_failure o = true ->
  1025 <= attempt ->
  script w = o :: rest ->
  request_attempts c method (JStr u) params (S n) attempt last w =
  (Raise (OverflowError "int too large to convert to float"),
   advance w rest [mkRequest (client_id c) method u params] []).
Proof.
  intros Ho Ha Hs. cbn [request_attempts]. unfold client_request.
  rewrite Hs, (sleep_delay_overflow attempt Ha).
  unfold advance. rewrite app_nil_r.
  destruct o as [r | e]; simpl in Ho.
  - cbv beta iota. rewrite Ho. reflexivity.
  - cbv beta iota. rewrite (retryable_failure_caught e Ho). reflexivity.
Qed.

(** A response whose status is not retryable ends the loop at once. *)
Lemma request_attempts_return c method u params n attempt last r rest w :
  retryable_status (status_code r) = false ->
  script w = Respond r :: rest ->
  request_attempts c method (JStr u) params (S n) attempt last w =
  (Ok r, advance w rest [mkRequest (client_id c) method u params] []).
Proof.
  intros Hr Hs. simpl. unfold client_request. rewrite Hs, Hr.
  unfold advance. now rewrite app_nil_r.
Qed.

(** A run of failed attempts, none beyond attempt 1024. *)
Lemma request_attempts_failures c method u params :
  forall fs n attempt last rest w,
    forallb retryable_failure fs = true ->
    attempt + Z.of_nat (List.length fs) <= 1025 ->
    script w = (fs ++ rest)%list ->
    request_attempts c method (JStr u) params (List.length fs + n) attempt last w =
    request_attempts c method (JStr u) params n
      (attempt + Z.of_nat (List.length fs)) (last_failure fs last)
      (advance w rest
         (repeat (mkRequest (client_id c) method u params) (List.length fs))
         (map backoff (attempts attempt (List.length fs)))).
Proof.
  induction fs as [| o fs IH]; intros n attempt last rest w Hf Ha Hs.
  - simpl in *. rewrite Z.add_0_r. rewrite <- Hs. now rewrite advance_id.
  - simpl in Hf. apply andb_true_iff in Hf as [Ho Hf].
    cbn [List.length Nat.add] in *.
    assert (Ha1 : attempt <= 1024) by lia.
    assert (Ha2 : attempt + 1 + Z.of_nat (List.length fs) <= 1025) by lia.
    rewrite (request_attempts_fail c method u params (List.length fs + n)
               attempt last o (fs ++ rest)%list w Ho Ha1 Hs).
    rewrite (IH n (attempt + 1) (Some (failure_exc o)) rest
               (advance w (fs ++ rest)%list
                        [mkRequest (client_id c) method u params]
                        [backoff attempt]) Hf Ha2 eq_refl).
    rewrite advance_advance.
    replace (attempt + 1 + Z.of_nat (List.length fs))
      with (attempt + Z.of_nat (S (List.length fs))) by lia.
    reflexivity.
Qed.

Lemma last_failure_snoc fs o last :
  last_failure (fs ++ [o]) last = Some (failure_exc o).
Proof. unfold last_failure. now rewrite fold_left_app. Qed.

Lemma attempts_length from k : List.length (attempts from k) = k.
Proof. revert from; induction k; intros; simpl; auto. Qed.

Lemma attempts_nth k : forall from i,
  (i < k)%nat -> nth i (attempts from k) 0 = from + Z.of_nat i.
Proof.
  induction k as [| k IH]; intros from i Hi; [lia |].
  destruct i as [| i]; simpl.
  - lia.
  - rewrite IH by lia. lia.
Qed.

Lemma attempts_snoc k : forall from,
  attempts from (k + 1) = (attempts from k ++ [from + Z.of_nat k])%list.
Proof.
  induction k as [| k IH]; intros from; simpl.
  - now rewrite Z.add_0_r.
  - rewrite IH. do 3 f_equal. lia.
Qed.

(** The delays of the first attempts are 0.25, 0.5 and 1 second, and each
    delay is twice the one before. *)
Lemma backoff_values :
  (backoff 1 == 1 # 4)%Q /\ (backoff 2 == 1 # 2)%Q /\ (backoff 3 == 1)%Q.
Proof. repeat split; reflexivity. Qed.

Lemma backoff_doubles attempt :
  1 <= attempt -> (backoff (attempt + 1) == 2 * backoff attempt)%Q.
Proof.
  intros H. unfold backoff.
  replace (attempt + 1 - 1) with (Z.succ (attempt - 1)) by lia.
  rewrite Z.pow_succ_r by lia.
  rewrite inject_Z_mult. ring.
Qed.

Lemma nth_backoff k : forall from i,
  (i < k)%nat ->
  nth i (map backoff (attempts from k)) 0%Q = backoff (from + Z.of_nat i).
Proof.
  induction k as [| k IH]; intros from i Hi; [lia |].
  destruct i as [| i]; cbn [attempts map nth].
  - f_equal. lia.
  - rewrite IH by lia. f_equal. lia.
Qed.

(** The delays [backoff 1], [backoff 2], ... spelled out: the [i]-th one,
    counted from 0, is a quarter of a second times 2 to the [i]. *)
Lemma delays_spelled_out k i :
  (i < k)%nat ->
  (nth i (map backoff (attempts 1 k)) 0 == (1 # 4) * inject_Z (2 ^ Z.of_nat i))%Q.
Proof.
  intros Hi. rewrite nth_backoff by exact Hi. unfold backoff.
  replace (1 + Z.of_nat i - 1) with (Z.of_nat i) by lia. reflexivity.
Qed.

(** All [max_retries] attempts fail, [max_retries] at most 1024: the loop
    ends and the last failure is raised, after one delay per attempt. *)
Lemma request_exhausted self c method u params fs o rest w :
  _client self = Some c ->
  forallb retryable_failure fs = true ->
  retryable_failure o = true ->
  Z.of_nat (List.length fs) + 1 = max_retries self ->
  max_retries self <= 1024 ->
  script w = (fs ++ o :: rest)%list ->
  _request self method (JStr u) params w =
  (Raise (failure_exc o),
   advance w rest
     (repeat (mkRequest (client_id c) method u params) (List.length fs + 1))
     (map backoff (attempts 1 (List.length fs + 1)))).
Proof.
  intros Hc Hfs Ho Hn Hb Hs. unfold _request. rewrite Hc.
  assert (Hall : forallb retryable_failure (fs ++ [o]) = true).
  { rewrite forallb_app, Hfs. simpl. now rewrite Ho. }
  assert (Hs' : script w = ((fs ++ [o]) ++ rest)%list).
  { now rewrite <- app_assoc. }
  assert (Hlen : List.length (fs ++ [o]) = (List.length fs + 1)%nat).
  { rewrite length_app. reflexivity. }
  replace (Z.to_nat (max_retries self)) with (List.length (fs ++ [o]) + 0)%nat
    by (rewrite Hlen; lia).
  assert (Ha : 1 + Z.of_nat (List.length (fs ++ [o])) <= 1025)
    by (rewrite Hlen; lia).
  rewrite (request_attempts_failures c method u params (fs ++ [o]) 0 1 None rest w
             Hall Ha Hs').
  rewrite last_failure_snoc, Hlen. reflexivity.
Qed.

(** 1025 failed attempts: after 1024 delays the delay of attempt 1025
    cannot be computed, and the call ends with the OverflowError, whatever
    is left of the retry budget and of the script. *)
Lemma request_overflow self c method u params fs o rest w :
  _client self = Some c ->
  forallb retryable_failure fs = true ->
  retryable_failure o = true ->
  List.length fs = 1024%nat ->
  1025 <= max_retries self ->
  script w = (fs ++ o :: rest)%list ->
  _request self method (JStr u) params w =
  (Raise (OverflowError "int too large to convert to float"),
   advance w rest
     (repeat (mkRequest (client_id c) method u params) 1025)
     (map backoff (attempts 1 1024))).
Proof.
  intros Hc Hfs Ho Hlen Hm Hs. unfold _request. rewrite Hc.
  remember (Z.to_nat (max_retries self) - 1025)%nat as m.
  replace (Z.to_nat (max_retries self)) with (List.length fs + S m)%nat by lia.
  assert (Ha : 1 + Z.of_nat (List.length fs) <= 1025) by lia.
  assert (Hover : 1025 <= 1 + Z.of_nat (List.length fs)) by lia.
  rewrite (request_attempts_failures c method u params fs (S m) 1 None
             (o :: rest) w Hfs Ha Hs).
  rewrite (request_attempts_overflow c method u params m
             (1 + Z.of_nat (List.length fs)) (last_failure fs None) o rest
             (advance w (o :: rest)
                (repeat (mkRequest (client_id c) method u params) (List.length fs))
                (map backoff (attempts 1 (List.length fs))))
             Ho Hover eq_refl).
  rewrite advance_advance, app_nil_r, Hlen.
  change 1025%nat with (1024 + 1)%nat. rewrite repeat_app. reflexivity.
Qed.

(** Without any attempt ([max_retries] not positive) nothing is sent and the
    [assert last_exc] fails. *)
Lemma request_no_attempts self c method url params w :
  _client self = Some c ->
  max_retries self <= 0 ->
  _request self method url params w = (Raise (AssertionError ""), w).
Proof.
  intros Hc Hm. unfold _request. rewrite Hc.
  replace (Z.to_nat (max_retries self)) with O by lia. reflexivity.
Qed.

(** C1, as amended: when the first N-1 attempts are retryable failures,
    N-1 at most 1024, and the N-th attempt, N <= max_retries, gets a response
    whose status is not retryable, [_request] returns that response after N
    requests and exactly N-1 delays, the delay after attempt [a] being
    0.25 * 2^(a-1) seconds: a quarter of a second times 2 to the [i] for the
    [i]-th delay counted from 0 (0.25, 0.5, 1, ...); nothing more of the
    script is consumed. *)
Theorem request_retry_then_success :
  forall self c method u params fs r rest w,
    _client self = Some c ->
    forallb retryable_failure fs = true ->
    retryable_status (status_code r) = false ->
    Z.of_nat (List.length fs) + 1 <= max_retries self ->
    Z.of_nat (List.length fs) <= 1024 ->
    script w = (fs ++ Respond r :: rest)%list ->
    exists delays,
      _request self method (JStr u) params w =
        (Ok r,
         advance w rest
           (repeat (mkRequest (client_id c) method u params) (List.length fs + 1))
           delays) /\
      List.length delays = List.length fs /\
      (forall i, (i < List.length fs)%nat ->
         (nth i delays 0 == (1 # 4) * inject_Z (2 ^ Z.of_nat i))%Q).
Proof.
  intros self c method u params fs r rest w Hc Hfs Hr Hn Hb Hs.
  exists (map backoff (attempts 1 (List.length fs))).
  split; [| split].
  - unfold _request. rewrite Hc.
    remember (Z.to_nat (max_retries self) - List.length fs - 1)%nat as m.
    replace (Z.to_nat (max_retries self)) with (List.length fs + S m)%nat by lia.
    assert (Ha : 1 + Z.of_nat (List.length fs) <= 1025) by lia.
    rewrite (request_attempts_failures c method u params fs (S m) 1 None
               (Respond r :: rest) w Hfs Ha Hs).
    rewrite (request_attempts_return c method u params m _ _ r rest); auto.
    rewrite advance_advance, app_nil_r, repeat_app. reflexivity.
  - now rewrite length_map, attempts_length.
  - intros i Hi. now apply delays_spelled_out.
Qed.

(** C2, as amended: when every one of the [max_retries] attempts is a
    retryable failure, [max_retries] at most 1024, [_request] raises the
    failure of the last attempt; it has sent exactly [max_retries] requests
    and the rest of the script is untouched. *)
Theorem request_exhausted_raises_last :
  forall self c method u params fs o rest w,
    _client self = Some c ->
    forallb retryable_failure fs = true ->
    retryable_failure o = true ->
    Z.of_nat (List.length fs) + 1 = max_retries self ->
    max_retries self <= 1024 ->
    script w = (fs ++ o :: rest)%list ->
    fst (_request self method (JStr u) params w) = Raise (failure_exc o) /\
    script (snd (_request self method (JStr u) params w)) = rest /\
    requests (snd (_request self method (JStr u) params w)) =
      (requests w ++
       repeat (mkRequest (client_id c) method u params)
              (Z.to_nat (max_retries self)))%list.
Proof.
  intros self c method u params fs o rest w Hc Hfs Ho Hn Hb Hs.
  rewrite (request_exhausted self c method u params fs o rest w Hc Hfs Ho Hn Hb Hs).
  simpl. repeat split.
  do 2 f_equal. lia.
Qed.

(** C7: a response whose status is not in the retryable set is returned as
    it is by the attempt that received it, whatever the attempt number and
    whatever failed before: one request is logged, no delay is slept and
    nothing more of the script is consumed.  The status may be any other
    4xx or 5xx.  In particular [_request] returns it on the first attempt. *)
Theorem request_returns_non_retryable :
  forall c method u params r rest w,
    retryable_status (status_code r) = false ->
    script w = Respond r :: rest ->
    (forall n attempt last,
        request_attempts c method (JStr u) params (S n) attempt last w =
        (Ok r, advance w rest [mkRequest (client_id c) method u params] [])) /\
    (forall self,
        _client self = Some c -> 1 <= max_retries self ->
        _request self method (JStr u) params w =
        (Ok r, advance w rest [mkRequest (client_id c) method u params] [])).
Proof.
  intros c method u params r rest w Hr Hs. split.
  - intros n attempt last. now apply request_attempts_return.
  - intros self Hc Hm. unfold _request. rewrite Hc.
    destruct (Z.to_nat (max_retries self)) as [| n] eqn:E; [lia |].
    now apply request_attempts_return.
Qed.

(** C10, as amended: when every one of the [max_retries] attempts is a
    retryable failure, [max_retries] at most 1024, a delay is slept after
    each failed attempt, the last one included: [max_retries] delays in all,
    the [i]-th one, counted from 0, of a quarter of a second times 2 to the
    [i], so that the last is 0.25 * 2^(max_retries-1) seconds, and only
    then is the failure raised. *)
Theorem request_exhausted_delays :
  forall self c method u params fs o rest w,
    _client self = Some c ->
    forallb retryable_failure fs = true ->
    retryable_failure o = true ->
    Z.of_nat (List.length fs) + 1 = max_retries self ->
    max_retries self <= 1024 ->
    script w = (fs ++ o :: rest)%list ->
    exists delays,
      fst (_request self method (JStr u) params w) = Raise (failure_exc o) /\
      sleeps (snd (_request self method (JStr u) params w)) =
        (sleeps w ++ delays)%list /\
      List.length delays = Z.to_nat (max_retries self) /\
      (forall i, (i < Z.to_nat (max_retries self))%nat ->
         (nth i delays 0 == (1 # 4) * inject_Z (2 ^ Z.of_nat i))%Q) /\
      (List.last delays 0 == (1 # 4) * inject_Z (2 ^ (max_retries self - 1)))%Q.
Proof.
  intros self c method u params fs o rest w Hc Hfs Ho Hn Hb Hs.
  rewrite (request_exhausted self c method u params fs o rest w Hc Hfs Ho Hn Hb Hs).
  cbn [fst snd advance sleeps].
  exists (map backoff (attempts 1 (List.length fs + 1))).
  replace (Z.to_nat (max_retries self)) with (List.length fs + 1)%nat by lia.
  split; [reflexivity |]. split; [reflexivity |]. split; [| split].
  - now rewrite length_map, attempts_length.
  - intros i Hi. now apply delays_spelled_out.
  - rewrite attempts_snoc, map_app. cbn [map]. rewrite last_last.
    unfold backoff.
    replace (1 + Z.of_nat (List.length fs) - 1) with (max_retries self - 1) by lia.
    reflexivity.
Qed.

(** ** The paged listing *)

Lemma is_success_not_retryable st :
  is_success st = true -> retryable_status st = false.
Proof.
  unfold is_success, retryable_status. intros H.
  apply andb_true_iff in H as [_ H]. apply Z.ltb_lt in H.
  repeat (apply orb_false_iff; split); apply Z.eqb_neq; lia.
Qed.

Lemma iter_items items : py_iter (py_or (JArr items) (JArr [])) = Ok items.
Proof. destruct items; reflexivity. Qed.

Section Walk.

Variable self : AsyncRancher.
Variable c : AsyncClient.
Hypothesis client_started : _client self = Some c.
Hypothesis may_attempt : 1 <= max_retries self.

(** Fetching a page costs one request and leaves the generator inside the
    loop over the page's items. *)
Lemma gen_step_fetch items next r rest u params w :
  page_of items next r ->
  script w = Respond r :: rest ->
  exists data,
    next_link data = Ok next /\
    gen_step self (GenFetch (JStr u) params) w =
    ((Resume, GenItems items data),
     advance w rest [page_request (client_id c) u params] []).
Proof.
  intros Hp Hs. destruct Hp as [st data Hst Hd Hn].
  exists data. split; [exact Hn |].
  unfold gen_step, fetch_page, bind.
  unfold _request. rewrite client_started.
  destruct (Z.to_nat (max_retries self)) as [| n] eqn:E; [lia |].
  rewrite (request_attempts_return c "GET" u (Some params) n 1 None
             (mkResponse st (Some data)) rest w
             (is_success_not_retryable st Hst) Hs).
  unfold lift, raise_for_status, resp_json. simpl. rewrite Hst, Hd.
  rewrite iter_items. reflexivity.
Qed.

Section Loop.

Context {S R : Type}.
Variable body : json -> S -> res (ctl S R).

Lemma run_body_app items more s :
  run_body body (items ++ more) s =
  match run_body body items s with
  | Ok (Continue s1) => run_body body more s1
  | other => other
  end.
Proof.
  revert s; induction items as [| x items IH]; intros s; simpl.
  - reflexivity.
  - destruct (body x s) as [[s1 | r] | e]; auto.
Qed.

(** The loop over the items of the current page. *)
Lemma async_for_items data extra w :
  forall pending s,
    async_for (List.length pending + extra) self body (GenItems pending data) s w =
    match run_body body pending s with
    | Ok (Continue s') => async_for extra self body (GenItems [] data) s' w
    | other => (Some other, w)
    end.
Proof.
  induction pending as [| x pending IH]; intros s.
  - reflexivity.
  - cbn [List.length Nat.add async_for gen_step run_body].
    destruct (body x s) as [[s1 | r] | e]; auto.
Qed.

Lemma async_for_follow data u extra s w :
  next_link data = Ok (JStr u) ->
  u <> "" ->
  async_for (Datatypes.S extra) self body (GenItems [] data) s w =
  async_for extra self body (GenFetch (JStr u) []) s w.
Proof.
  intros Hn Hu. cbn [async_for gen_step]. rewrite Hn.
  assert (truthy (JStr u) = true) as ->.
  { simpl. destruct (String.eqb_spec u ""); [contradiction | reflexivity]. }
  reflexivity.
Qed.

Lemma async_for_stop data next extra s w :
  next_link data = Ok next ->
  truthy next = false ->
  async_for (Datatypes.S extra) self body (GenItems [] data) s w =
  (Some (Ok (Continue s)), w).
Proof.
  intros Hn Ht. cbn [async_for gen_step]. rewrite Hn, Ht. reflexivity.
Qed.

(** One page, from the request to the end of its items. *)
Lemma async_for_page items next r rest u params extra s w :
  page_of items next r ->
  script w = Respond r :: rest ->
  exists data,
    next_link data = Ok next /\
    async_for (Datatypes.S (List.length items + extra)) self body
              (GenFetch (JStr u) params) s w =
    match run_body body items s with
    | Ok (Continue s') =>
        async_for extra self body (GenItems [] data) s'
                  (advance w rest [page_request (client_id c) u params] [])
    | other =>
        (Some other, advance w rest [page_request (client_id c) u params] [])
    end.
Proof.
  intros Hp Hs.
  destruct (gen_step_fetch items next r rest u params w Hp Hs) as (data & Hn & Hg).
  exists data. split; [exact Hn |].
  cbn [async_for]. rewrite Hg.
  apply async_for_items.
Qed.

(** Pages that carry a next link, walked while the body falls through. *)
Lemma async_for_linked rs itemss us :
  linked_pages rs itemss us ->
  forall u0 params s s' rest extra w,
    script w = (map Respond rs ++ rest)%list ->
    run_body body (List.concat itemss) s = Ok (Continue s') ->
    async_for (2 * List.length rs + List.length (List.concat itemss) + extra)
              self body (GenFetch (JStr u0) params) s w =
    async_for extra self body
              (GenFetch (JStr (fst (walk_end u0 params us)))
                        (snd (walk_end u0 params us))) s'
              (advance w rest (walk_requests (client_id c) u0 params us) []).
Proof.
  induction 1 as [| r items u rs itemss us Hp Hu Hl IH];
    intros u0 params s s' rest extra w Hs Hb.
  - simpl in *. injection Hb as <-. rewrite <- Hs. now rewrite advance_id.
  - cbn [List.concat] in *. rewrite run_body_app in Hb.
    destruct (run_body body items s) as [[s1 | ?] | ?] eqn:E1; try discriminate.
    simpl in Hs.
    replace (2 * List.length (r :: rs) + List.length (items ++ List.concat itemss) + extra)%nat
      with (Datatypes.S (List.length items +
              Datatypes.S (2 * List.length rs + List.length (List.concat itemss) + extra)))
      by (rewrite length_app; simpl; lia).
    destruct (async_for_page items (JStr u) r (map Respond rs ++ rest)%list
                u0 params
                (Datatypes.S (2 * List.length rs + List.length (List.concat itemss) + extra))
                s w Hp Hs) as (data & Hn & Hrun).
    rewrite Hrun, E1.
    rewrite (async_for_follow data u _ s1 _ Hn Hu).
    rewrite (IH u [] s1 s' rest extra
               (advance w (map Respond rs ++ rest)%list
                        [page_request (client_id c) u0 params] [])
               eq_refl Hb).
    rewrite advance_advance. reflexivity.
Qed.

(** A walk cut before its last request, completed by that request. *)
Lemma walk_requests_end cid : forall us u0 params,
  (walk_requests cid u0 params us ++
   [page_request cid (fst (walk_end u0 params us))
                 (snd (walk_end u0 params us))])%list =
  page_requests cid u0 params us.
Proof.
  induction us as [| u us IH]; intros u0 params; simpl.
  - reflexivity.
  - rewrite IH. reflexivity.
Qed.

(** A listing walked up to a page on which the loop may stop: the pages
    before it carry links and let the body fall through. *)
Lemma async_for_upto rs itemss us items next r u0 params s s1 rest extra w :
  linked_pages rs itemss us ->
  page_of items next r ->
  script w = (map Respond rs ++ Respond r :: rest)%list ->
  run_body body (List.concat itemss) s = Ok (Continue s1) ->
  exists data,
    next_link data = Ok next /\
    async_for (2 * List.length rs + List.length (List.concat itemss) +
               Datatypes.S (List.length items + extra))
              self body (GenFetch (JStr u0) params) s w =
    match run_body body items s1 with
    | Ok (Continue s') =>
        async_for extra self body (GenItems [] data) s'
                  (advance w rest (page_requests (client_id c) u0 params us) [])
    | other =>
        (Some other, advance w rest (page_requests (client_id c) u0 params us) [])
    end.
Proof.
  intros Hl Hp Hs Hb.
  rewrite (async_for_linked rs itemss us Hl u0 params s s1 (Respond r :: rest)
             _ w Hs Hb).
  destruct (async_for_page items next r rest
              (fst (walk_end u0 params us)) (snd (walk_end u0 params us))
              extra s1
              (advance w (Respond r :: rest)
                       (walk_requests (client_id c) u0 params us) [])
              Hp eq_refl) as (data & Hn & Hrun).
  exists data. split; [exact Hn |].
  rewrite Hrun, !advance_advance, walk_requests_end. reflexivity.
Qed.

(** A whole listing, its last page without a link, when the body falls
    through on every item. *)
Lemma async_for_listing rs itemss us items next r u0 params s s' rest fuel w :
  linked_pages rs itemss us ->
  page_of items next r ->
  truthy next = false ->
  script w = (map Respond rs ++ Respond r :: rest)%list ->
  run_body body (List.concat itemss ++ items) s = Ok (Continue s') ->
  (2 * (List.length rs + 1) + List.length (List.concat itemss ++ items) <= fuel)%nat ->
  async_for fuel self body (GenFetch (JStr u0) params) s w =
  (Some (Ok (Continue s')),
   advance w rest (page_requests (client_id c) u0 params us) []).
Proof.
  intros Hl Hp Ht Hs Hb Hfuel.
  rewrite run_body_app in Hb.
  destruct (run_body body (List.concat itemss) s) as [[s1 | ?] | ?] eqn:E1;
    try discriminate.
  rewrite length_app in Hfuel.
  remember (fuel - (2 * (List.length rs + 1) +
                    (List.length (List.concat itemss) + List.length items)))%nat as extra.
  replace fuel
    with (2 * List.length rs + List.length (List.concat itemss) +
          Datatypes.S (List.length items + Datatypes.S extra))%nat by lia.
  destruct (async_for_upto rs itemss us items next r u0 params s s1 rest
              (Datatypes.S extra) w Hl Hp Hs E1) as (data & Hn & Hrun).
  rewrite Hrun, Hb.
  apply (async_for_stop data next); assumption.
Qed.

End Loop.

End Walk.

Lemma run_collect items : forall acc,
  run_body collect_body items acc = Ok (Continue (acc ++ items)%list).
Proof.
  induction items as [| x items IH]; intros acc; simpl.
  - now rewrite app_nil_r.
  - rewrite IH, <- app_assoc. reflexivity.
Qed.

(** C3: over pages that each carry an item list, all but the last with a
    next link and the last without one, the listing yields the concatenation
    of the pages' items in response order and then stops: it has sent one
    request per page (the first to the joined path with the page size, the
    others to the links with no parameters) and the rest of the script is
    untouched. *)
Theorem list_all_concatenates :
  forall self c path page_size rs itemss us items next r rest fuel w,
    _client self = Some c ->
    1 <= max_retries self ->
    linked_pages rs itemss us ->
    page_of items next r ->
    truthy next = false ->
    script w = (map Respond rs ++ Respond r :: rest)%list ->
    (listing_steps (List.length rs + 1)
                   (List.length (List.concat itemss ++ items)) <= fuel)%nat ->
    list_all fuel self path page_size w =
    (Some (Ok (Continue (List.concat itemss ++ items)%list)),
     advance w rest
       (page_requests (client_id c)
          (urljoin (base_url self ++ "/") (lstrip_slash path))
          [("limit", page_size)] us) []).
Proof.
  intros self c path page_size rs itemss us items next r rest fuel w
         Hc Hm Hl Hp Ht Hs Hfuel.
  unfold list_all, rancher_list_all.
  apply (async_for_listing self c Hc Hm collect_body rs itemss us items next r);
    auto.
  apply (run_collect _ []).
Qed.

(** ** Cluster resolution *)

Lemma selected_is_object name c : selected name c = true -> is_object c = true.
Proof.
  destruct c; simpl; auto; unfold selected, names_match; simpl; discriminate.
Qed.

Lemma resolve_body_skip name x :
  is_object x = true ->
  selected name x = false ->
  resolve_body name x tt = Ok (Continue tt).
Proof.
  destruct x as [| | | | | kv]; try discriminate. intros _.
  unfold selected, names_match, resolve_body, field, dict_get, dict_get_default.
  destruct (eq_str _ name); simpl.
  - now intros ->.
  - destruct (eq_str _ name); simpl; [now intros -> | reflexivity].
Qed.

Lemma resolve_body_pick name x :
  selected name x = true ->
  resolve_body name x tt = Ok (Return (field x "id")).
Proof.
  intros H. pose proof (selected_is_object name x H) as Ho.
  destruct x as [| | | | | kv]; try discriminate.
  revert H.
  unfold selected, names_match, resolve_body, field, dict_get, dict_get_default.
  destruct (eq_str _ name); simpl.
  - now intros ->.
  - destruct (eq_str _ name); simpl; [now intros -> | discriminate].
Qed.

Lemma run_resolve_skip name items :
  forallb is_object items = true ->
  forallb (fun x => negb (selected name x)) items = true ->
  run_body (resolve_body name) items tt = Ok (Continue tt).
Proof.
  induction items as [| x items IH]; simpl; intros Ho Hn; [reflexivity |].
  apply andb_true_iff in Ho as [Hx Ho]. apply andb_true_iff in Hn as [Hs Hn].
  apply negb_true_iff in Hs.
  rewrite (resolve_body_skip name x Hx Hs). auto.
Qed.

(** C4, as amended: an input that contains ':' or starts with 'c-' is
    returned unchanged and no request is made; for any other input the
    paged cluster listing is scanned and the first cluster whose name or
    displayName equals the input and whose id is not empty wins, its id is
    returned and no later page is fetched; when the whole listing holds no
    such cluster, resolution raises ValueError "Cluster not found: <input>". *)
Theorem resolve_cluster_id_first_with_id :
  forall self name,
    (forall fuel w,
        looks_like_id name = true ->
        resolve_cluster_id fuel self name w = (Some (Ok (JStr name)), w)) /\
    (forall c rs itemss us pre cl post next r rest fuel w,
        _client self = Some c ->
        1 <= max_retries self ->
        looks_like_id name = false ->
        linked_pages rs itemss us ->
        page_of (pre ++ cl :: post) next r ->
        script w = (map Respond rs ++ Respond r :: rest)%list ->
        forallb is_object (List.concat itemss ++ pre) = true ->
        forallb (fun x => negb (selected name x)) (List.concat itemss ++ pre) = true ->
        selected name cl = true ->
        (listing_steps (List.length rs + 1)
           (List.length (List.concat itemss ++ pre ++ cl :: post)) <= fuel)%nat ->
        resolve_cluster_id fuel self name w =
        (Some (Ok (field cl "id")),
         advance w rest
           (page_requests (client_id c)
              (urljoin (base_url self ++ "/") "v3/clusters")
              [("limit", 100)] us) [])) /\
    (forall c rs itemss us items next r rest fuel w,
        _client self = Some c ->
        1 <= max_retries self ->
        looks_like_id name = false ->
        linked_pages rs itemss us ->
        page_of items next r ->
        truthy next = false ->
        script w = (map Respond rs ++ Respond r :: rest)%list ->
        forallb is_object (List.concat itemss ++ items) = true ->
        forallb (fun x => negb (selected name x)) (List.concat itemss ++ items) = true ->
        (listing_steps (List.length rs + 1)
           (List.length (List.concat itemss ++ items)) <= fuel)%nat ->
        resolve_cluster_id fuel self name w =
        (Some (Raise (ValueError ("Cluster not found: " ++ name))),
         advance w rest
           (page_requests (client_id c)
              (urljoin (base_url self ++ "/") "v3/clusters")
              [("limit", 100)] us) [])).
Proof.
  intros self name. split; [| split].
  - intros fuel w Hid. unfold resolve_cluster_id.
    unfold looks_like_id in Hid. now rewrite Hid.
  - intros c rs itemss us pre cl post next r rest fuel w
           Hc Hm Hid Hl Hp Hs Ho Hn Hsel Hfuel.
    unfold resolve_cluster_id. unfold looks_like_id in Hid. rewrite Hid.
    rewrite forallb_app in Ho, Hn.
    apply andb_true_iff in Ho as [Ho1 Ho2].
    apply andb_true_iff in Hn as [Hn1 Hn2].
    unfold listing_steps in Hfuel. rewrite length_app in Hfuel.
    remember (fuel - (2 * (List.length rs + 1) +
                      (List.length (List.concat itemss) +
                       List.length (pre ++ cl :: post))))%nat as extra.
    replace fuel
      with (2 * List.length rs + List.length (List.concat itemss) +
            Datatypes.S (List.length (pre ++ cl :: post) + Datatypes.S extra))%nat
      by lia.
    unfold rancher_list_all. cbn [lstrip_slash Ascii.eqb Bool.eqb].
    destruct (async_for_upto self c Hc Hm (resolve_body name) rs itemss us
                (pre ++ cl :: post) next r
                (urljoin (base_url self ++ "/") "v3/clusters") [("limit", 100)]
                tt tt rest (Datatypes.S extra) w Hl Hp Hs
                (run_resolve_skip name _ Ho1 Hn1)) as (data & _ & Hrun).
    rewrite Hrun, run_body_app, (run_resolve_skip name pre Ho2 Hn2).
    cbn [run_body]. rewrite (resolve_body_pick name cl Hsel). reflexivity.
  - intros c rs itemss us items next r rest fuel w
           Hc Hm Hid Hl Hp Ht Hs Ho Hn Hfuel.
    unfold resolve_cluster_id. unfold looks_like_id in Hid. rewrite Hid.
    unfold rancher_list_all. cbn [lstrip_slash Ascii.eqb Bool.eqb].
    rewrite (async_for_listing self c Hc Hm (resolve_body name) rs itemss us
               items next r (urljoin (base_url self ++ "/") "v3/clusters")
               [("limit", 100)] tt tt rest fuel w Hl Hp Ht Hs
               (run_resolve_skip name _ Ho Hn) Hfuel).
    reflexivity.
Qed.

(** ** Listing pods *)

(** Whatever the script holds, the attempts of one call all log the same
    request, at most one per iteration, and at least one when there is an
    iteration. *)
Lemma request_attempts_log c method u params :
  forall n attempt last w,
  exists k,
    (k <= n)%nat /\ ((1 <= n)%nat -> (1 <= k)%nat) /\
    requests (snd (request_attempts c method (JStr u) params n attempt last w)) =
    (requests w ++ repeat (mkRequest (client_id c) method u params) k)%list.
Proof.
  induction n as [| n IH]; intros attempt last w.
  - exists O. split; [lia |]. split; [lia |].
    simpl. rewrite app_nil_r. destruct last; reflexivity.
  - assert (Hone : forall (x : res response) rest,
               exists k,
                 (k <= Datatypes.S n)%nat /\
                 ((1 <= Datatypes.S n)%nat -> (1 <= k)%nat) /\
                 requests (snd (x, mkWorld rest
                     (requests w ++ [mkRequest (client_id c) method u params])
                     (sleeps w) (clients_created w) (clients_closed w))) =
                 (requests w ++
                  repeat (mkRequest (client_id c) method u params) k)%list).
    { intros x rest. exists 1%nat. repeat split; lia. }
    assert (Hmore : forall d e rest,
               exists k,
                 (k <= Datatypes.S n)%nat /\
                 ((1 <= Datatypes.S n)%nat -> (1 <= k)%nat) /\
                 requests (snd (request_attempts c method (JStr u) params n
                     (attempt + 1) (Some e)
                     (snd (sleep d
                        (mkWorld rest
                           (requests w ++ [mkRequest (client_id c) method u params])
                           (sleeps w) (clients_created w) (clients_closed w)))))) =
                 (requests w ++
                  repeat (mkRequest (client_id c) method u params) k)%list).
    { intros d e rest.
      destruct (IH (attempt + 1) (Some e)
                   (snd (sleep d
                      (mkWorld rest
                         (requests w ++ [mkRequest (client_id c) method u params])
                         (sleeps w) (clients_created w) (clients_closed w)))))
        as (k & Hk & _ & Hreq).
      exists (Datatypes.S k). split; [lia |]. split; [lia |].
      rewrite Hreq. simpl. rewrite <- app_assoc. reflexivity. }
    cbn [request_attempts]. unfold client_request.
    destruct (script w) as [| [r | e] rest].
    + apply Hone.
    + destruct (retryable_status (status_code r)); [| apply Hone].
      destruct (sleep_delay attempt) as [d | overflow];
        [apply Hmore | apply Hone].
    + destruct (caught e); [| apply Hone].
      destruct (sleep_delay attempt) as [d | overflow];
        [apply Hmore | apply Hone].
Qed.

Lemma k8s_get_world self cluster_id k8s_path params w :
  snd (k8s_get self cluster_id k8s_path params w) =
  snd (_request self "GET"
         (JStr (urljoin (base_url self ++ "/")
                        (_k8s_base cluster_id ++ lstrip_slash k8s_path)))
         params w).
Proof.
  unfold k8s_get, bind, lift.
  destruct (_request _ _ _ _ w) as [[resp | e] w1]; simpl; [| reflexivity].
  destruct (raise_for_status resp); reflexivity.
Qed.

Lemma pods_path_no_slash namespace :
  lstrip_slash (pods_path namespace) = pods_path namespace.
Proof.
  unfold pods_path. destruct (not_namespace namespace); reflexivity.
Qed.

(** C5, as amended: [list_pods] first resolves the cluster reference; when
    resolution yields an id, every request made after it is a GET of the
    proxy prefix /k8s/clusters/{clusterId}/ followed by
    api/v1/namespaces/{ns}/pods when a namespace that is not the empty string
    is supplied, and by api/v1/pods when none or the empty string is
    supplied; there is at least one such request and at most [max_retries].
    When resolution fails, its error is raised and no request follows. *)
Theorem list_pods_request :
  forall fuel self c cluster namespace w,
    _client self = Some c ->
    1 <= max_retries self ->
    (forall cid w',
        resolve_cluster_id fuel self cluster w = (Some (Ok cid), w') ->
        let path :=
          match namespace with
          | Some ns => if (ns =? "")%string then "api/v1/pods"
                       else "api/v1/namespaces/" ++ ns ++ "/pods"
          | None => "api/v1/pods"
          end in
        _k8s_base cid = "/k8s/clusters/" ++ py_str cid ++ "/" /\
        exists k,
          (1 <= k <= Z.to_nat (max_retries self))%nat /\
          requests (snd (list_pods fuel self cluster namespace w)) =
          (requests w' ++
           repeat (mkRequest (client_id c) "GET"
                     (urljoin (base_url self ++ "/") (_k8s_base cid ++ path))
                     None) k)%list) /\
    (forall e w',
        resolve_cluster_id fuel self cluster w = (Some (Raise e), w') ->
        list_pods fuel self cluster namespace w = (Some (Raise e), w')).
Proof.
  intros fuel self c cluster namespace w Hc Hm. split.
  - intros cid w' Hres path. split; [reflexivity |].
    unfold list_pods. rewrite Hres.
    destruct (k8s_get self cid (pods_path namespace) None w') as [r w''] eqn:E.
    assert (Hw : w'' = snd (k8s_get self cid (pods_path namespace) None w'))
      by now rewrite E.
    cbn [snd]. rewrite Hw, k8s_get_world, pods_path_no_slash.
    unfold _request. rewrite Hc.
    destruct (request_attempts_log c "GET"
                (urljoin (base_url self ++ "/")
                         (_k8s_base cid ++ pods_path namespace))
                None (Z.to_nat (max_retries self)) 1 None w')
      as (k & Hk & Hk1 & Hreq).
    exists k. split; [lia |].
    rewrite Hreq.
    replace (pods_path namespace) with path; [reflexivity |].
    unfold path, pods_path, not_namespace, str_namespace.
    destruct namespace as [ns |]; [| reflexivity].
    destruct (ns =? "")%string; reflexivity.
  - intros e w' Hres. unfold list_pods. now rewrite Hres.
Qed.

(** ** The tool projections *)

Lemma count_ready_objects cs :
  forallb is_object cs = true -> count_ready cs = Ok (ready_count cs).
Proof.
  unfold ready_count.
  induction cs as [| x cs IH]; simpl; intros H; [reflexivity |].
  apply andb_true_iff in H as [Hx H]. rewrite (IH H).
  destruct x as [| | | | | kv]; try discriminate.
  unfold dict_get, dict_get_default, field.
  destruct (truthy _); reflexivity.
Qed.

Lemma ready_ratio_statuses pod cs :
  container_statuses pod = Some cs ->
  forallb is_object cs = true ->
  ready_ratio pod =
  Ok (str_of_nat (ready_count cs) ++ "/" ++ str_of_nat (List.length cs)).
Proof.
  intros Hcs Hobj.
  destruct pod as [| | | | | kv]; try discriminate.
  unfold ready_ratio, get2_list, dict_get_default. simpl in Hcs.
  destruct (assoc "status" kv) as [st |].
  - destruct st as [| | | | | stkv]; try discriminate.
    destruct (assoc "containerStatuses" stkv) as [v |].
    + destruct v as [| | | | l |]; try discriminate.
      injection Hcs as <-. simpl. now rewrite (count_ready_objects l Hobj).
    + injection Hcs as <-. reflexivity.
  - injection Hcs as <-. reflexivity.
Qed.

(** C6: the ready entry of a pod is the count of its ready containers over
    the count of its containers, both 0 when the pod has no status or the
    status has no containerStatuses: two of three ready gives "2/3", no
    containerStatuses gives "0/0".  The projection stores it under the key
    ["ready"]. *)
Theorem pod_ready_ratio :
  (forall pod cs,
      container_statuses pod = Some cs ->
      forallb is_object cs = true ->
      ready_ratio pod =
      Ok (str_of_nat (ready_count cs) ++ "/" ++ str_of_nat (List.length cs))) /\
  (forall pod info,
      pod_info pod = Ok info ->
      exists ratio, ready_ratio pod = Ok ratio /\ field info "ready" = JStr ratio) /\
  ready_ratio pod_two_of_three = Ok "2/3" /\
  ready_ratio pod_no_statuses = Ok "0/0" /\
  ready_ratio pod_no_status = Ok "0/0" /\
  project_pods (JObj [("items", JArr [pod_two_of_three; pod_no_statuses])]) =
  Ok [JObj [("name", JStr "web-0"); ("namespace", JNull); ("ready", JStr "2/3");
            ("status", JStr "Running"); ("age", JNull)];
      JObj [("name", JStr "web-1"); ("namespace", JNull); ("ready", JStr "0/0");
            ("status", JStr "Pending"); ("age", JNull)]].
Proof.
  split; [exact ready_ratio_statuses |].
  split; [| repeat split; reflexivity].
  intros pod info H. unfold pod_info in H.
  destruct (get2 pod "metadata" "name"); try discriminate.
  destruct (get2 pod "metadata" "namespace"); try discriminate.
  destruct (ready_ratio pod) as [ratio |]; try discriminate.
  destruct (get2 pod "status" "phase"); try discriminate.
  destruct (get2 pod "metadata" "creationTimestamp"); try discriminate.
  injection H as <-. exists ratio. split; reflexivity.
Qed.

Lemma cluster_info_project c :
  well_shaped_cluster c = true -> cluster_info c = Ok (project_cluster c).
Proof.
  unfold well_shaped_cluster. intros H.
  apply andb_true_iff in H as [Ho H].
  destruct c as [| | | | | kv]; try discriminate.
  unfold cluster_info, project_cluster, dict_get, dict_get_default.
  cbn [field] in *.
  destruct (assoc "rancherKubernetesEngineConfig" kv) as [rke |];
    [| reflexivity].
  unfold py_or.
  destruct rke as [| b | n | s | l | rkv]; simpl in H |- *;
    try (destruct (truthy _); discriminate).
  - reflexivity.
  - destruct b; [discriminate | reflexivity].
  - destruct (n =? 0); [reflexivity | discriminate].
  - destruct (s =? "")%string; [reflexivity | discriminate].
  - destruct l; [reflexivity | discriminate].
  - destruct rkv; reflexivity.
Qed.

Lemma run_clusters items : forall acc,
  forallb well_shaped_cluster items = true ->
  run_body clusters_body items acc =
  Ok (Continue (acc ++ map project_cluster items)%list).
Proof.
  induction items as [| x items IH]; intros acc H; simpl.
  - now rewrite app_nil_r.
  - simpl in H. apply andb_true_iff in H as [Hx H].
    unfold clusters_body at 1. rewrite (cluster_info_project x Hx).
    rewrite (IH _ H), <- app_assoc. reflexivity.
Qed.

Lemma get_rancher_script p :
  script (env (snd (get_rancher p))) = script (env p).
Proof.
  unfold get_rancher. destruct (_rancher_singleton p); [reflexivity |].
  unfold start, init. reflexivity.
Qed.

(** C8, as amended: over a paged cluster listing, [rancher_clusters]
    returns, in order, the projection of each cluster record into a record
    with the fields id, name, displayName, state and version, the last one
    holding the kubernetesVersion of the record's
    rancherKubernetesEngineConfig; a field the record lacks is projected as
    [None] and the operation does not fail, down to a record with no field
    at all. *)
Theorem rancher_clusters_projects :
  forall fuel p c rs itemss us items next r rest,
    _client (fst (get_rancher p)) = Some c ->
    1 <= max_retries (fst (get_rancher p)) ->
    linked_pages rs itemss us ->
    page_of items next r ->
    truthy next = false ->
    script (env p) = (map Respond rs ++ Respond r :: rest)%list ->
    forallb well_shaped_cluster (List.concat itemss ++ items) = true ->
    (listing_steps (List.length rs + 1)
                   (List.length (List.concat itemss ++ items)) <= fuel)%nat ->
    fst (rancher_clusters fuel p) =
      Some (Ok (map project_cluster (List.concat itemss ++ items))) /\
    script (env (snd (rancher_clusters fuel p))) = rest /\
    (forall kv k, assoc k kv = None -> field (JObj kv) k = JNull) /\
    cluster_info (JObj []) =
      Ok (JObj [("id", JNull); ("name", JNull); ("displayName", JNull);
                ("state", JNull); ("version", JNull)]).
Proof.
  intros fuel p c rs itemss us items next r rest Hc Hm Hl Hp Ht Hs Hw Hfuel.
  pose proof (get_rancher_script p) as Hscript.
  unfold rancher_clusters.
  destruct (get_rancher p) as [client p1]. cbn [fst snd] in *.
  rewrite Hs in Hscript.
  unfold rancher_list_all.
  rewrite (async_for_listing client c Hc Hm clusters_body rs itemss us items
             next r _ [("limit", 100)] [] _ rest fuel (env p1) Hl Hp Ht Hscript
             (run_clusters _ [] Hw) Hfuel).
  cbn [fst snd env advance script app].
  repeat split.
  intros kv k H. simpl. now rewrite H.
Qed.

(** ** The shared client *)

(** C9: [start] on an instance that already has a client changes nothing,
    so starting twice is starting once; and acquiring the singleton twice
    gives the instance, the client and the state that acquiring it once
    gives: a single client is ever created. *)
Theorem start_idempotent :
  forall self w p,
    (forall c, _client self = Some c -> start self w = (self, w)) /\
    start (fst (start self w)) (snd (start self w)) = start self w /\
    get_rancher (snd (get_rancher p)) = get_rancher p /\
    (clients_created (env (snd (get_rancher (snd (get_rancher p))))) <=
     Datatypes.S (clients_created (env p)))%nat.
Proof.
  intros self w p. split; [| split; [| split]].
  - intros c Hc. unfold start. now rewrite Hc.
  - unfold start. destruct (_client self) eqn:E; simpl.
    + now rewrite E.
    + reflexivity.
  - unfold get_rancher. destruct (_rancher_singleton p) eqn:E; simpl.
    + now rewrite E.
    + reflexivity.
  - unfold get_rancher. destruct (_rancher_singleton p) eqn:E; simpl.
    + rewrite E. simpl. lia.
    + lia.
Qed.

(** ** Further properties of the retry wrapper *)

(** Whatever the script holds, the loop sends the same request [k] times,
    [k] at most the iterations left, sleeps the delays of the attempts
    [attempt], ..., [attempt + j - 1] with [j = k] or [j = k - 1], and
    consumes at most [k] outcomes from the front of the script. *)
Lemma request_attempts_trace c method u params :
  forall n attempt last w w',
    w' = snd (request_attempts c method (JStr u) params n attempt last w) ->
    exists k j consumed,
      (k <= n)%nat /\ (j <= k <= j + 1)%nat /\
      (List.length consumed <= k)%nat /\
      script w = (consumed ++ script w')%list /\
      w' = advance w (script w')
             (repeat (mkRequest (client_id c) method u params) k)
             (map backoff (attempts attempt j)).
Proof.
  induction n as [| n IH]; intros attempt last w w' Hw.
  - exists O, O, []. simpl in Hw.
    assert (w' = w) as -> by (destruct last; exact Hw).
    repeat split; try lia; try reflexivity. now rewrite advance_id.
  - assert (Hone : forall (x : res response) (consumed : list outcome) rest,
               (List.length consumed <= 1)%nat ->
               script w = (consumed ++ rest)%list ->
               w' = snd (x, mkWorld rest
                     (requests w ++ [mkRequest (client_id c) method u params])
                     (sleeps w) (clients_created w) (clients_closed w)) ->
               exists k j consumed,
                 (k <= Datatypes.S n)%nat /\ (j <= k <= j + 1)%nat /\
                 (List.length consumed <= k)%nat /\
                 script w = (consumed ++ script w')%list /\
                 w' = advance w (script w')
                        (repeat (mkRequest (client_id c) method u params) k)
                        (map backoff (attempts attempt j))).
    { intros x consumed rest Hlen Hs ->. exists 1%nat, O, consumed.
      repeat split; try lia; try exact Hs.
      unfold advance; simpl. now rewrite app_nil_r. }
    assert (Hmore : forall e o rest,
               script w = o :: rest ->
               w' = snd (request_attempts c method (JStr u) params n
                     (attempt + 1) (Some e)
                     (advance w rest [mkRequest (client_id c) method u params]
                              [backoff attempt])) ->
               exists k j consumed,
                 (k <= Datatypes.S n)%nat /\ (j <= k <= j + 1)%nat /\
                 (List.length consumed <= k)%nat /\
                 script w = (consumed ++ script w')%list /\
                 w' = advance w (script w')
                        (repeat (mkRequest (client_id c) method u params) k)
                        (map backoff (attempts attempt j))).
    { intros e o rest Hs Hw'.
      destruct (IH (attempt + 1) (Some e) _ w' Hw')
        as (k & j & consumed & Hk & Hj & Hlen & Hscr & Hadv).
      exists (Datatypes.S k), (Datatypes.S j), (o :: consumed).
      repeat split; try (simpl; lia).
      - rewrite Hs. simpl. simpl in Hscr. now rewrite Hscr at 1.
      - rewrite Hadv at 1. rewrite advance_advance. reflexivity. }
    assert (Hd : forall d, sleep_delay attempt = Ok d -> d = backoff attempt).
    { unfold sleep_delay. intros d H.
      destruct (attempt - 1 <=? max_float_exponent); [| discriminate].
      now injection H. }
    cbn [request_attempts] in Hw. unfold client_request in Hw.
    destruct (script w) as [| [r | e] rest] eqn:Hs.
    + apply (Hone (Raise StopAsyncIteration) [] []); auto.
    + destruct (retryable_status (status_code r)).
      * destruct (sleep_delay attempt) as [d | overflow] eqn:Hsd.
        -- rewrite (Hd d eq_refl) in Hw.
           apply (Hmore (HTTPStatusError "retryable status" r) (Respond r) rest);
             auto.
        -- apply (Hone (Raise overflow) [Respond r] rest); auto.
      * apply (Hone (Ok r) [Respond r] rest); auto.
    + destruct (caught e).
      * destruct (sleep_delay attempt) as [d | overflow] eqn:Hsd.
        -- rewrite (Hd d eq_refl) in Hw.
           apply (Hmore e (Fail e) rest); auto.
        -- apply (Hone (Raise overflow) [Fail e] rest); auto.
      * apply (Hone (Raise e) [Fail e] rest); auto.
Qed.

(** X1: for every script, a call of [_request] on a started client sends
    the same request [k] times with [k] at most [max_retries], sleeps
    [backoff 1], ..., [backoff j] with [j = k] or [j = k - 1], consumes at
    most [k] outcomes from the front of the script, and changes nothing
    else in the world. *)
Theorem request_bounded :
  forall self c method u params w,
    _client self = Some c ->
    exists k j consumed,
      (k <= Z.to_nat (max_retries self))%nat /\ (j <= k <= j + 1)%nat /\
      (List.length consumed <= k)%nat /\
      script w =
        (consumed ++ script (snd (_request self method (JStr u) params w)))%list /\
      snd (_request self method (JStr u) params w) =
        advance w (script (snd (_request self method (JStr u) params w)))
          (repeat (mkRequest (client_id c) method u params) k)
          (map backoff (attempts 1 j)).
Proof.
  intros self c method u params w Hc. unfold _request. rewrite Hc.
  exact (request_attempts_trace c method u params _ 1 None w _ eq_refl).
Qed.

Lemma request_attempts_result c method url params :
  forall n attempt last w r,
    fst (request_attempts c method url params n attempt last w) = Ok r ->
    retryable_status (status_code r) = false /\ In (Respond r) (script w).
Proof.
  induction n as [| n IH]; intros attempt last w r H.
  - simpl in H. destruct last; discriminate.
  - cbn [request_attempts] in H. unfold client_request in H.
    destruct url as [| | | u | |]; try discriminate.
    destruct (script w) as [| [r0 | e] rest] eqn:Hs.
    + discriminate.
    + destruct (retryable_status (status_code r0)) eqn:Hr.
      * destruct (sleep_delay attempt) as [d | overflow]; [| discriminate].
        apply IH in H. simpl in H. destruct H as [H1 H2].
        split; [exact H1 | now right].
      * simpl in H. injection H as <-. split; [exact Hr | now left].
    + destruct (caught e).
      * destruct (sleep_delay attempt) as [d | overflow]; [| discriminate].
        apply IH in H. simpl in H. destruct H as [H1 H2].
        split; [exact H1 | now right].
      * discriminate.
Qed.

(** X2: whenever [_request] returns a response, the response is one of the
    script and its status is not retryable: a 429 or a retried 5xx never
    reaches the caller as a return value. *)
Theorem request_returns_from_script :
  forall self method url params w r,
    fst (_request self method url params w) = Ok r ->
    retryable_status (status_code r) = false /\ In (Respond r) (script w).
Proof.
  intros self method url params w r H. unfold _request in H.
  destruct (_client self) as [c |]; [| discriminate].
  exact (request_attempts_result c method url params _ _ _ _ _ H).
Qed.

(** X3: an exception of the transport that is neither a TransportError nor
    an HTTPStatusError is not retried: after N-1 retryable failures, N-1 at
    most 1024 and N <= max_retries, it is raised by the N-th attempt with no
    delay after it, and the rest of the script is untouched. *)
Theorem request_propagates_uncaught :
  forall self c method u params fs e rest w,
    _client self = Some c ->
    forallb retryable_failure fs = true ->
    caught e = false ->
    Z.of_nat (List.length fs) + 1 <= max_retries self ->
    Z.of_nat (List.length fs) <= 1024 ->
    script w = (fs ++ Fail e :: rest)%list ->
    _request self method (JStr u) params w =
    (Raise e,
     advance w rest
       (repeat (mkRequest (client_id c) method u params) (List.length fs + 1))
       (map backoff (attempts 1 (List.length fs)))).
Proof.
  intros self c method u params fs e rest w Hc Hfs He Hn Hb Hs.
  unfold _request. rewrite Hc.
  remember (Z.to_nat (max_retries self) - List.length fs - 1)%nat as m.
  replace (Z.to_nat (max_retries self)) with (List.length fs + Datatypes.S m)%nat
    by lia.
  assert (Ha : 1 + Z.of_nat (List.length fs) <= 1025) by lia.
  rewrite (request_attempts_failures c method u params fs (Datatypes.S m) 1 None
             (Fail e :: rest) w Hfs Ha Hs).
  cbn [request_attempts]. unfold client_request. cbn [script advance].
  rewrite He. unfold advance. cbn [script requests sleeps clients_created clients_closed].
  rewrite <- app_assoc, repeat_app. reflexivity.
Qed.

(** ** The life of the client *)

Lemma close_no_client self w : _client (fst (close self w)) = None.
Proof. unfold close. destruct (_client self) eqn:E; [reflexivity | exact E]. Qed.

(** X4: an instance without a client (never started, or closed) refuses
    every operation with AssertionError "Client not started" and leaves the
    world as it is: nothing is sent. *)
Theorem closed_client_refuses :
  forall self w0 w,
    let closed := fst (close self w0) in
    (forall method url params,
        _request closed method url params w =
        (Raise (AssertionError "Client not started"), w)) /\
    (forall path params,
        rancher_get closed path params w =
        (Raise (AssertionError "Client not started"), w)) /\
    (forall cid path params,
        k8s_get closed cid path params w =
        (Raise (AssertionError "Client not started"), w)) /\
    (forall fuel path page_size,
        (1 <= fuel)%nat ->
        list_all fuel closed path page_size w =
        (Some (Raise (AssertionError "Client not started")), w)).
Proof.
  intros self w0 w closed.
  assert (Hreq : forall method url params,
             _request closed method url params w =
             (Raise (AssertionError "Client not started"), w)).
  { intros. unfold _request, closed. now rewrite close_no_client. }
  split; [exact Hreq |]. split; [| split].
  - intros. unfold rancher_get, bind. now rewrite Hreq.
  - intros. unfold k8s_get, bind. now rewrite Hreq.
  - intros fuel path page_size Hfuel.
    destruct fuel as [| fuel]; [lia |].
    unfold list_all, rancher_list_all. cbn [async_for gen_step].
    unfold fetch_page, bind. now rewrite Hreq.
Qed.

(** X5: start, close, start: closing gives back the instance as it was
    before the start and records the client as closed; the second start
    makes a new client, numbered after the first, and neither touches the
    script, the requests or the delays. *)
Theorem restart_makes_fresh_client :
  forall self w,
    _client self = None ->
    let s1 := fst (start self w) in
    let w1 := snd (start self w) in
    let s2 := fst (close s1 w1) in
    let w2 := snd (close s1 w1) in
    let s3 := fst (start s2 w2) in
    let w3 := snd (start s2 w2) in
    s2 = self /\
    clients_closed w2 = (clients_closed w ++ [clients_created w])%list /\
    (exists c1 c3,
        _client s1 = Some c1 /\ _client s3 = Some c3 /\
        client_id c1 = clients_created w /\
        client_id c3 = Datatypes.S (client_id c1)) /\
    clients_created w3 = Datatypes.S (Datatypes.S (clients_created w)) /\
    script w3 = script w /\ requests w3 = requests w /\ sleeps w3 = sleeps w.
Proof.
  intros self w Hc. destruct self as [b t ca ti m cl]. simpl in Hc. subst cl.
  cbn. repeat split.
  eexists. eexists. repeat split.
Qed.

(** X6: closing the singleton is idempotent, keeps the settings, closes the
    client of a started singleton once and leaves no singleton; the next
    acquisition then builds a new instance from the settings with a new
    client, numbered by the clients created so far. *)
Theorem aclose_rancher_then_get :
  forall p,
    aclose_rancher (aclose_rancher p) = aclose_rancher p /\
    _rancher_singleton (aclose_rancher p) = None /\
    settings (aclose_rancher p) = settings p /\
    (forall r c,
        _rancher_singleton p = Some r -> _client r = Some c ->
        clients_closed (env (aclose_rancher p)) =
          (clients_closed (env p) ++ [client_id c])%list) /\
    (exists c',
        _client (fst (get_rancher (aclose_rancher p))) = Some c' /\
        client_id c' = clients_created (env p) /\
        client_base_url c' = RANCHER_URL (settings p) /\
        clients_created (env (snd (get_rancher (aclose_rancher p)))) =
          Datatypes.S (clients_created (env p))) /\
    max_retries (fst (get_rancher (aclose_rancher p))) = MAX_RETRIES (settings p).
Proof.
  intros p. unfold aclose_rancher, get_rancher, close, start, init.
  destruct (_rancher_singleton p) as [r |] eqn:E.
  - destruct (_client r) as [c |] eqn:Ec; cbn; rewrite ?E; cbn;
      repeat split; try (intros r0 c0 H1 H2; congruence);
      try (eexists; repeat split).
  - cbn. rewrite E. cbn. repeat split; try (intros; discriminate).
    eexists; repeat split.
Qed.

Lemma same_clients_refl w : same_clients w w.
Proof. split; reflexivity. Qed.

Lemma same_clients_trans w1 w2 w3 :
  same_clients w1 w2 -> same_clients w2 w3 -> same_clients w1 w3.
Proof. unfold same_clients. intros [A B] [C D]. split; congruence. Qed.

Lemma request_attempts_clients c method url params :
  forall n attempt last w,
    same_clients w (snd (request_attempts c method url params n attempt last w)).
Proof.
  induction n as [| n IH]; intros attempt last w.
  - simpl. destruct last; apply same_clients_refl.
  - cbn [request_attempts]. unfold client_request.
    destruct url as [| | | u | |]; try apply same_clients_refl.
    destruct (script w) as [| [r | e] rest].
    + split; reflexivity.
    + destruct (retryable_status (status_code r)); [| split; reflexivity].
      destruct (sleep_delay attempt) as [d | overflow]; [| split; reflexivity].
      eapply same_clients_trans; [| apply IH]. split; reflexivity.
    + destruct (caught e); [| split; reflexivity].
      destruct (sleep_delay attempt) as [d | overflow]; [| split; reflexivity].
      eapply same_clients_trans; [| apply IH]. split; reflexivity.
Qed.

Lemma request_clients self method url params w :
  same_clients w (snd (_request self method url params w)).
Proof.
  unfold _request. destruct (_client self).
  - apply request_attempts_clients.
  - apply same_clients_refl.
Qed.

Lemma gen_step_clients self g w :
  same_clients w (snd (gen_step self g w)).
Proof.
  unfold gen_step. destruct g as [url params | [| item rest] data |].
  - unfold fetch_page, bind, lift, ret.
    pose proof (request_clients self "GET" url (Some params) w) as H.
    destruct (_request self "GET" url (Some params) w) as [[resp | e] w1];
      simpl in H; [| exact H].
    destruct (raise_for_status resp); [| exact H].
    destruct (resp_json resp) as [data |]; [| exact H].
    destruct (dict_get data "data") as [d |]; [| exact H].
    destruct (py_iter (py_or d (JArr []))); exact H.
  - destruct (next_link data) as [next |]; [| apply same_clients_refl].
    destruct (negb (truthy next)); apply same_clients_refl.
  - apply same_clients_refl.
  - apply same_clients_refl.
Qed.

Lemma async_for_clients {S R : Type} self (body : json -> S -> res (ctl S R)) :
  forall fuel g s w, same_clients w (snd (async_for fuel self body g s w)).
Proof.
  induction fuel as [| fuel IH]; intros g s w.
  - apply same_clients_refl.
  - cbn [async_for].
    pose proof (gen_step_clients self g w) as H.
    destruct (gen_step self g w) as [[ev g'] w1]. simpl in H.
    destruct ev as [item | | | e]; try exact H.
    + destruct (body item s) as [[s' | r] | e]; try exact H.
      eapply same_clients_trans; [exact H | apply IH].
    + eapply same_clients_trans; [exact H | apply IH].
Qed.

Lemma resolve_clients fuel self name w :
  same_clients w (snd (resolve_cluster_id fuel self name w)).
Proof.
  unfold resolve_cluster_id.
  destruct (contains ":" name || startswith "c-" name);
    [apply same_clients_refl |].
  pose proof (async_for_clients self (resolve_body name) fuel
                (rancher_list_all self "/v3/clusters" 100) tt w) as H.
  destruct (async_for fuel self (resolve_body name) _ tt w) as [[[[? | ?] | ?] |] w1];
    exact H.
Qed.

Lemma list_pods_clients fuel self cluster namespace w :
  same_clients w (snd (list_pods fuel self cluster namespace w)).
Proof.
  unfold list_pods.
  pose proof (resolve_clients fuel self cluster w) as H.
  destruct (resolve_cluster_id fuel self cluster w) as [[[cid | e] |] w1];
    simpl in H; try exact H.
  destruct (k8s_get self cid (pods_path namespace) None w1) as [r w2] eqn:E.
  assert (Hw : w2 = snd (k8s_get self cid (pods_path namespace) None w1))
    by now rewrite E.
  cbn [snd]. rewrite Hw, k8s_get_world.
  eapply same_clients_trans; [exact H | apply request_clients].
Qed.

(** X7: the tools keep the shared client: after [rancher_clusters] or
    [k8s_pods], whatever the script and the result, the settings are the
    same, the singleton is the instance [get_rancher] gave, it is started
    if the singleton was started or absent before, no client was closed and
    none was created beyond the one [get_rancher] makes. *)
Theorem tools_keep_singleton :
  forall fuel p cluster namespace,
    singleton_started p = true ->
    let after_clusters := snd (rancher_clusters fuel p) in
    let after_pods := snd (k8s_pods fuel p cluster namespace) in
    singleton_started (snd (get_rancher p)) = true /\
    (exists c, _client (fst (get_rancher p)) = Some c) /\
    singleton_started after_clusters = true /\
    singleton_started after_pods = true /\
    _rancher_singleton after_clusters = Some (fst (get_rancher p)) /\
    _rancher_singleton after_pods = Some (fst (get_rancher p)) /\
    settings after_clusters = settings p /\
    settings after_pods = settings p /\
    same_clients (env (snd (get_rancher p))) (env after_clusters) /\
    same_clients (env (snd (get_rancher p))) (env after_pods) /\
    (clients_created (env (snd (get_rancher p))) <=
     Datatypes.S (clients_created (env p)))%nat.
Proof.
  intros fuel p cluster namespace Hp.
  assert (Hget : singleton_started (snd (get_rancher p)) = true /\
                 (exists c, _client (fst (get_rancher p)) = Some c) /\
                 _rancher_singleton (snd (get_rancher p)) =
                   Some (fst (get_rancher p)) /\
                 settings (snd (get_rancher p)) = settings p /\
                 (clients_created (env (snd (get_rancher p))) <=
                  Datatypes.S (clients_created (env p)))%nat).
  { unfold singleton_started, get_rancher in *.
    destruct (_rancher_singleton p) as [r |] eqn:E.
    - cbn. rewrite E. destruct (_client r) as [c |]; [| discriminate].
      repeat split; try lia. now exists c.
    - cbn. repeat split; try lia. eexists; reflexivity. }
  destruct Hget as (H1 & H2 & H3 & H4 & H5).
  assert (Hc : forall (x : option (res (list json))) w,
             singleton_started
               (mkProcess (settings (snd (get_rancher p)))
                          (_rancher_singleton (snd (get_rancher p))) w) = true).
  { intros x w. unfold singleton_started in *. exact H1. }
  cbv zeta. unfold rancher_clusters, k8s_pods.
  destruct (get_rancher p) as [client p1]. cbn [fst snd] in *.
  pose proof (async_for_clients client clusters_body fuel
                (rancher_list_all client "/v3/clusters" 100) [] (env p1)) as Ha.
  pose proof (list_pods_clients fuel client cluster namespace (env p1)) as Hb.
  destruct (async_for fuel client clusters_body _ [] (env p1))
    as [[[[? | ?] | ?] |] wa];
    destruct (list_pods fuel client cluster namespace (env p1))
      as [[[? | ?] |] wb];
    cbn [fst snd env settings _rancher_singleton] in *;
    repeat split; auto;
      try (apply (Hc None)); try apply Ha; try apply Hb.
Qed.

(** X8: with a retry budget that is not positive no tool can work: on a
    started client, [rancher_clusters] and [k8s_pods] raise the
    AssertionError of [assert last_exc] and send nothing, whatever the
    script. *)
Theorem tools_without_attempts :
  forall fuel p c cluster namespace,
    _client (fst (get_rancher p)) = Some c ->
    max_retries (fst (get_rancher p)) <= 0 ->
    (1 <= fuel)%nat ->
    fst (rancher_clusters fuel p) = Some (Raise (AssertionError "")) /\
    fst (k8s_pods fuel p cluster namespace) = Some (Raise (AssertionError "")) /\
    requests (env (snd (rancher_clusters fuel p))) = requests (env p) /\
    requests (env (snd (k8s_pods fuel p cluster namespace))) = requests (env p) /\
    script (env (snd (rancher_clusters fuel p))) = script (env p) /\
    script (env (snd (k8s_pods fuel p cluster namespace))) = script (env p).
Proof.
  intros fuel p c cluster namespace Hc Hm Hfuel.
  assert (Henv : requests (env (snd (get_rancher p))) = requests (env p) /\
                 script (env (snd (get_rancher p))) = script (env p)).
  { unfold get_rancher. destruct (_rancher_singleton p); split; reflexivity. }
  destruct Henv as [Hr Hs].
  unfold rancher_clusters, k8s_pods, list_pods, resolve_cluster_id.
  destruct (get_rancher p) as [client p1]. cbn [fst snd] in *.
  assert (Hreq : forall method url params w,
             _request client method url params w =
             (Raise (AssertionError ""), w)).
  { intros. now apply (request_no_attempts client c). }
  destruct fuel as [| fuel]; [lia |].
  unfold rancher_list_all. cbn [async_for gen_step].
  unfold fetch_page, bind. rewrite !Hreq.
  destruct (contains ":" cluster || startswith "c-" cluster).
  - unfold k8s_get, bind. rewrite Hreq. cbn. repeat split; assumption.
  - cbn. repeat split; assumption.
Qed.

(** ** Single requests and paths *)

(** X9: [rancher_get] and [k8s_get] make of the response that [_request]
    returns the decoded body when its status is 2xx, the JSONDecodeError
    when that body is not JSON, and otherwise the HTTPStatusError carrying
    the response; either way after one request, to the joined path, and no
    delay. *)
Theorem get_outcomes :
  forall self c r rest w,
    _client self = Some c ->
    1 <= max_retries self ->
    retryable_status (status_code r) = false ->
    script w = Respond r :: rest ->
    let outcome :=
      if is_success (status_code r)
      then match body r with
           | Some j => Ok j
           | None => Raise JSONDecodeError
           end
      else Raise (HTTPStatusError "raise_for_status" r) in
    (forall path params,
        rancher_get self path params w =
        (outcome,
         advance w rest
           [mkRequest (client_id c) "GET"
              (urljoin (base_url self ++ "/") (lstrip_slash path)) params] [])) /\
    (forall cid path params,
        k8s_get self cid path params w =
        (outcome,
         advance w rest
           [mkRequest (client_id c) "GET"
              (urljoin (base_url self ++ "/")
                       (_k8s_base cid ++ lstrip_slash path)) params] [])).
Proof.
  intros self c r rest w Hc Hm Hr Hs outcome.
  assert (Hreq : forall u params,
             _request self "GET" (JStr u) params w =
             (Ok r, advance w rest [mkRequest (client_id c) "GET" u params] [])).
  { intros u params. unfold _request. rewrite Hc.
    destruct (Z.to_nat (max_retries self)) as [| n] eqn:E; [lia |].
    now apply request_attempts_return. }
  split; intros; unfold rancher_get, k8s_get, bind, lift; rewrite Hreq;
    unfold outcome, raise_for_status, resp_json;
    destruct (is_success (status_code r)); try reflexivity;
    destruct (body r); reflexivity.
Qed.

Lemma lstrip_slashes k : forall path,
  lstrip_slash (slashes k ++ path) = lstrip_slash path.
Proof. induction k as [| k IH]; intros path; simpl; auto. Qed.

Lemma prefix_iff p : forall s,
  String.prefix p s = true <-> exists b, s = p ++ b.
Proof.
  induction p as [| ch p IH]; intros s.
  - split; [intros _; now exists s | intros _; destruct s; reflexivity].
  - destruct s as [| ch' s].
    + split; [discriminate | intros [b Hb]; discriminate].
    + cbn [String.prefix]. destruct (ascii_dec ch ch') as [-> | Hne].
      * rewrite IH. split; intros [b Hb]; exists b.
        -- simpl. now rewrite Hb.
        -- simpl in Hb. now injection Hb.
      * split; [discriminate |]. intros [b Hb]. simpl in Hb.
        injection Hb as E _. now elim Hne.
Qed.

Lemma lstrip_slash_no_slash s : String.prefix "/" (lstrip_slash s) = false.
Proof.
  induction s as [| ch s IH]; cbn [lstrip_slash]; [reflexivity |].
  destruct (Ascii.eqb_spec ch "/"%char) as [-> | Hne]; [exact IH |].
  apply not_true_is_false. intros H.
  apply prefix_iff in H as [b Hb]. injection Hb as E _. now elim Hne.
Qed.

Lemma lstrip_slash_suffix s : exists k, s = slashes k ++ lstrip_slash s.
Proof.
  induction s as [| ch s [k IH]]; simpl.
  - now exists O.
  - destruct (Ascii.eqb_spec ch "/"%char) as [-> | Hne].
    + exists (Datatypes.S k). simpl. now rewrite <- IH.
    + now exists O.
Qed.

(** X10: leading slashes of a path do not count: [rancher_get],
    [rancher_list_all] and [k8s_get] strip all of them before joining, so a
    path with any number of slashes in front behaves as the path without
    them, and what is joined to the base never starts with a slash in the
    first two. *)
Theorem leading_slashes_ignored :
  forall self k path,
    (forall params w,
        rancher_get self (slashes k ++ path) params w =
        rancher_get self path params w) /\
    (forall page_size,
        rancher_list_all self (slashes k ++ path) page_size =
        rancher_list_all self path page_size) /\
    (forall cid params w,
        k8s_get self cid (slashes k ++ path) params w =
        k8s_get self cid path params w) /\
    String.prefix "/" (lstrip_slash path) = false /\
    (exists j, path = slashes j ++ lstrip_slash path).
Proof.
  intros self k path.
  unfold rancher_get, rancher_list_all, k8s_get.
  rewrite lstrip_slashes.
  repeat split.
  - apply lstrip_slash_no_slash.
  - apply lstrip_slash_suffix.
Qed.

Lemma contains_unfold sub s :
  contains sub s =
  if String.prefix sub s then true
  else match s with
       | EmptyString => false
       | String _ s' => contains sub s'
       end.
Proof. destruct s; reflexivity. Qed.

Lemma contains_iff sub : forall s,
  contains sub s = true <-> exists a b, s = a ++ sub ++ b.
Proof.
  intros s. split.
  - induction s as [| ch s IH]; rewrite contains_unfold;
      destruct (String.prefix sub _) eqn:E.
    + intros _. apply prefix_iff in E as [b Hb]. now exists "", b.
    + discriminate.
    + intros _. apply prefix_iff in E as [b Hb]. now exists "", b.
    + intros H. destruct (IH H) as (a & b & Hab).
      exists (String ch a), b. simpl. now rewrite Hab.
  - intros (a & b & Hab). subst s.
    induction a as [| ch a IH]; rewrite contains_unfold.
    + assert (String.prefix sub ("" ++ sub ++ b) = true) as ->; [| reflexivity].
      apply prefix_iff. now exists b.
    + destruct (String.prefix sub _); [reflexivity | exact IH].
Qed.

(** X11: what [resolve_cluster_id] takes for an id is exactly a string with
    a colon anywhere in it or with "c-" at its start. *)
Theorem looks_like_id_iff :
  forall s,
    looks_like_id s = true <->
    (exists a b, s = a ++ ":" ++ b) \/ (exists t, s = "c-" ++ t).
Proof.
  intros s. unfold looks_like_id, startswith.
  rewrite orb_true_iff, contains_iff, prefix_iff. reflexivity.
Qed.

(** X12: for a reference taken for an id, a cluster name with a colon
    included, [list_pods] never lists the clusters: every request it makes
    is the GET through the proxy of that very string, at least one and at
    most [max_retries] of them, whatever the script. *)
Theorem list_pods_id_skips_listing :
  forall fuel self c cluster namespace w,
    _client self = Some c ->
    1 <= max_retries self ->
    looks_like_id cluster = true ->
    exists k,
      (1 <= k <= Z.to_nat (max_retries self))%nat /\
      requests (snd (list_pods fuel self cluster namespace w)) =
      (requests w ++
       repeat (mkRequest (client_id c) "GET"
                 (urljoin (base_url self ++ "/")
                    (("/k8s/clusters/" ++ cluster ++ "/") ++ pods_path namespace))
                 None) k)%list.
Proof.
  intros fuel self c cluster namespace w Hc Hm Hid.
  unfold list_pods, resolve_cluster_id.
  unfold looks_like_id in Hid. rewrite Hid.
  destruct (k8s_get self (JStr cluster) (pods_path namespace) None w)
    as [r w''] eqn:E.
  assert (Hw : w'' = snd (k8s_get self (JStr cluster) (pods_path namespace) None w))
    by now rewrite E.
  cbn [snd]. rewrite Hw, k8s_get_world, pods_path_no_slash.
  unfold _request. rewrite Hc.
  destruct (request_attempts_log c "GET"
              (urljoin (base_url self ++ "/")
                       (_k8s_base (JStr cluster) ++ pods_path namespace))
              None (Z.to_nat (max_retries self)) 1 None w)
    as (k & Hk & Hk1 & Hreq).
  exists k. split; [lia |]. exact Hreq.
Qed.

(** ** Failures inside a listing *)

(** A response that [raise_for_status] refuses ends the generator. *)
Lemma gen_step_fetch_error self c u params r rest w :
  _client self = Some c ->
  1 <= max_retries self ->
  final_error r = true ->
  script w = Respond r :: rest ->
  gen_step self (GenFetch (JStr u) params) w =
  ((Throw (HTTPStatusError "raise_for_status" r), GenDone),
   advance w rest [page_request (client_id c) u params] []).
Proof.
  intros Hc Hm Hr Hs. unfold final_error in Hr.
  apply andb_true_iff in Hr as [Hr1 Hr2].
  apply negb_true_iff in Hr1. apply negb_true_iff in Hr2.
  unfold gen_step, fetch_page, bind, _request. rewrite Hc.
  destruct (Z.to_nat (max_retries self)) as [| n] eqn:E; [lia |].
  rewrite (request_attempts_return c "GET" u (Some params) n 1 None r rest w Hr1 Hs).
  unfold lift, raise_for_status. rewrite Hr2. reflexivity.
Qed.

(** Pages that carry links, then a refused response: the loop ends with
    the HTTPStatusError, whatever the body gathered so far. *)
Lemma async_for_broken {S R : Type} self c (body : json -> S -> res (ctl S R))
    rs itemss us r rest u0 params s s' fuel w :
  _client self = Some c ->
  1 <= max_retries self ->
  linked_pages rs itemss us ->
  final_error r = true ->
  script w = (map Respond rs ++ Respond r :: rest)%list ->
  run_body body (List.concat itemss) s = Ok (Continue s') ->
  (listing_steps (List.length rs) (List.length (List.concat itemss)) + 1 <= fuel)%nat ->
  async_for fuel self body (GenFetch (JStr u0) params) s w =
  (Some (Raise (HTTPStatusError "raise_for_status" r)),
   advance w rest (page_requests (client_id c) u0 params us) []).
Proof.
  intros Hc Hm Hl Hr Hs Hb Hfuel. unfold listing_steps in Hfuel.
  remember (fuel - (2 * List.length rs + List.length (List.concat itemss) + 1))%nat
    as extra.
  replace fuel
    with (2 * List.length rs + List.length (List.concat itemss) +
          Datatypes.S extra)%nat by lia.
  rewrite (async_for_linked self c Hc Hm body rs itemss us Hl u0 params s s'
             (Respond r :: rest) (Datatypes.S extra) w Hs Hb).
  cbn [async_for].
  rewrite (gen_step_fetch_error self c (fst (walk_end u0 params us))
             (snd (walk_end u0 params us)) r rest
             (advance w (Respond r :: rest)
                      (walk_requests (client_id c) u0 params us) [])
             Hc Hm Hr eq_refl).
  rewrite advance_advance, walk_requests_end. reflexivity.
Qed.

(** X13: when a page of the cluster listing comes back with a status that
    is neither 2xx nor retryable, [rancher_clusters] raises the
    HTTPStatusError carrying that response: the clusters of the pages
    before it are not returned. *)
Theorem rancher_clusters_fails_whole :
  forall fuel p c rs itemss us r rest,
    _client (fst (get_rancher p)) = Some c ->
    1 <= max_retries (fst (get_rancher p)) ->
    linked_pages rs itemss us ->
    final_error r = true ->
    script (env p) = (map Respond rs ++ Respond r :: rest)%list ->
    forallb well_shaped_cluster (List.concat itemss) = true ->
    (listing_steps (List.length rs) (List.length (List.concat itemss)) + 1
     <= fuel)%nat ->
    fst (rancher_clusters fuel p) =
      Some (Raise (HTTPStatusError "raise_for_status" r)) /\
    script (env (snd (rancher_clusters fuel p))) = rest.
Proof.
  intros fuel p c rs itemss us r rest Hc Hm Hl Hr Hs Hw Hfuel.
  pose proof (get_rancher_script p) as Hscript.
  unfold rancher_clusters.
  destruct (get_rancher p) as [client p1]. cbn [fst snd] in *.
  rewrite Hs in Hscript. unfold rancher_list_all.
  rewrite (async_for_broken client c clusters_body rs itemss us r rest _
             [("limit", 100)] [] _ fuel (env p1) Hc Hm Hl Hr Hscript
             (run_clusters _ [] Hw) Hfuel).
  split; reflexivity.
Qed.

(** X14: when the cluster listing breaks on such a response before any
    cluster was picked, resolving a name raises the HTTPStatusError, not
    the ValueError of a cluster not found, and [list_pods] raises it too
    without any request to the proxy. *)
Theorem resolve_reports_listing_error :
  forall fuel self c name namespace rs itemss us r rest w,
    _client self = Some c ->
    1 <= max_retries self ->
    looks_like_id name = false ->
    linked_pages rs itemss us ->
    final_error r = true ->
    script w = (map Respond rs ++ Respond r :: rest)%list ->
    forallb is_object (List.concat itemss) = true ->
    forallb (fun x => negb (selected name x)) (List.concat itemss) = true ->
    (listing_steps (List.length rs) (List.length (List.concat itemss)) + 1
     <= fuel)%nat ->
    resolve_cluster_id fuel self name w =
      (Some (Raise (HTTPStatusError "raise_for_status" r)),
       advance w rest
         (page_requests (client_id c)
            (urljoin (base_url self ++ "/") "v3/clusters")
            [("limit", 100)] us) []) /\
    list_pods fuel self name namespace w =
      (Some (Raise (HTTPStatusError "raise_for_status" r)),
       advance w rest
         (page_requests (client_id c)
            (urljoin (base_url self ++ "/") "v3/clusters")
            [("limit", 100)] us) []).
Proof.
  intros fuel self c name namespace rs itemss us r rest w
         Hc Hm Hid Hl Hr Hs Ho Hn Hfuel.
  assert (Hres : resolve_cluster_id fuel self name w =
                 (Some (Raise (HTTPStatusError "raise_for_status" r)),
                  advance w rest
                    (page_requests (client_id c)
                       (urljoin (base_url self ++ "/") "v3/clusters")
                       [("limit", 100)] us) [])).
  { unfold resolve_cluster_id. unfold looks_like_id in Hid. rewrite Hid.
    unfold rancher_list_all. cbn [lstrip_slash Ascii.eqb Bool.eqb].
    rewrite (async_for_broken self c (resolve_body name) rs itemss us r rest
               (urljoin (base_url self ++ "/") "v3/clusters")
               [("limit", 100)] tt tt fuel w Hc Hm Hl Hr Hs
               (run_resolve_skip name _ Ho Hn) Hfuel).
    reflexivity. }
  split; [exact Hres |]. unfold list_pods. now rewrite Hres.
Qed.

(** A page fetched after failed attempts: the retries are inside
    [_request], the generator sees the page only. *)
Lemma gen_step_fetch_retry self c items next r fs rest u params w :
  _client self = Some c ->
  page_of items next r ->
  forallb retryable_failure fs = true ->
  Z.of_nat (List.length fs) + 1 <= max_retries self ->
  Z.of_nat (List.length fs) <= 1024 ->
  script w = (fs ++ Respond r :: rest)%list ->
  exists data,
    next_link data = Ok next /\
    gen_step self (GenFetch (JStr u) params) w =
    ((Resume, GenItems items data),
     advance w rest
       (repeat (page_request (client_id c) u params) (List.length fs + 1))
       (map backoff (attempts 1 (List.length fs)))).
Proof.
  intros Hc Hp Hfs Hn Hb Hs. destruct Hp as [st data Hst Hd Hnext].
  exists data. split; [exact Hnext |].
  unfold gen_step, fetch_page, bind, _request. rewrite Hc.
  remember (Z.to_nat (max_retries self) - List.length fs - 1)%nat as m.
  replace (Z.to_nat (max_retries self)) with (List.length fs + Datatypes.S m)%nat
    by lia.
  assert (Ha : 1 + Z.of_nat (List.length fs) <= 1025) by lia.
  rewrite (request_attempts_failures c "GET" u (Some params) fs (Datatypes.S m)
             1 None (Respond (mkResponse st (Some data)) :: rest) w Hfs Ha Hs).
  rewrite (request_attempts_return c "GET" u (Some params) m _ _
             (mkResponse st (Some data)) rest
             (advance w (Respond (mkResponse st (Some data)) :: rest)
                (repeat (mkRequest (client_id c) "GET" u (Some params))
                        (List.length fs))
                (map backoff (attempts 1 (List.length fs))))
             (is_success_not_retryable st Hst) eq_refl).
  unfold lift, raise_for_status, resp_json. simpl. rewrite Hst, Hd.
  rewrite iter_items, advance_advance, app_nil_r.
  unfold page_request. rewrite repeat_app. reflexivity.
Qed.

(** X15: retries are invisible to the listing: when the first page is
    preceded by retryable failures, fewer than [max_retries] and at most
    1024, the listing yields the same items in the same order; the only
    traces are the repeated first request and the delays. *)
Theorem list_all_after_retries :
  forall self c path page_size fs rs itemss us items next r rest fuel w,
    _client self = Some c ->
    linked_pages rs itemss us ->
    page_of items next r ->
    truthy next = false ->
    forallb retryable_failure fs = true ->
    Z.of_nat (List.length fs) + 1 <= max_retries self ->
    Z.of_nat (List.length fs) <= 1024 ->
    script w = (fs ++ map Respond rs ++ Respond r :: rest)%list ->
    (listing_steps (List.length rs + 1)
                   (List.length (List.concat itemss ++ items)) <= fuel)%nat ->
    list_all fuel self path page_size w =
    (Some (Ok (Continue (List.concat itemss ++ items)%list)),
     advance w rest
       (repeat (page_request (client_id c)
                  (urljoin (base_url self ++ "/") (lstrip_slash path))
                  [("limit", page_size)]) (List.length fs) ++
        page_requests (client_id c)
          (urljoin (base_url self ++ "/") (lstrip_slash path))
          [("limit", page_size)] us)
       (map backoff (attempts 1 (List.length fs)))).
Proof.
  intros self c path page_size fs rs itemss us items next r rest fuel w
         Hc Hl Hp Ht Hfs Hn Hb Hs Hfuel.
  assert (Hm : 1 <= max_retries self) by lia.
  unfold list_all, rancher_list_all, listing_steps in *.
  set (u0 := urljoin (base_url self ++ "/") (lstrip_slash path)) in *.
  rewrite length_app in Hfuel.
  destruct Hl as [| r1 items1 u1 rs itemss us Hp1 Hu1 Hl].
  - simpl in Hs, Hfuel.
    destruct (gen_step_fetch_retry self c items next r fs rest u0
                [("limit", page_size)] w Hc Hp Hfs Hn Hb Hs) as (data & Hnext & Hg).
    remember (fuel - (2 + List.length items))%nat as extra.
    replace fuel with (Datatypes.S (List.length items + Datatypes.S extra)) by lia.
    cbn [async_for]. rewrite Hg.
    rewrite (async_for_items self collect_body data (Datatypes.S extra) _ items []).
    rewrite run_collect.
    rewrite (async_for_stop self collect_body data next extra _ _ Hnext Ht).
    cbn [List.concat app page_requests map].
    rewrite repeat_app. reflexivity.
  - cbn [List.concat List.length map app] in Hs, Hfuel.
    rewrite length_app in Hfuel.
    destruct (gen_step_fetch_retry self c items1 (JStr u1) r1 fs
                (map Respond rs ++ Respond r :: rest)%list u0
                [("limit", page_size)] w Hc Hp1 Hfs Hn Hb Hs)
      as (data & Hnext & Hg).
    remember (fuel - (2 + List.length items1))%nat as extra.
    replace fuel with (Datatypes.S (List.length items1 + Datatypes.S extra)) by lia.
    cbn [async_for]. rewrite Hg.
    rewrite (async_for_items self collect_body data (Datatypes.S extra) _ items1 []).
    rewrite run_collect.
    rewrite (async_for_follow self collect_body data u1 extra _ _ Hnext Hu1).
    rewrite (async_for_listing self c Hc Hm collect_body rs itemss us items next r
               u1 [] ([] ++ items1)%list
               (([] ++ items1) ++ List.concat itemss ++ items)%list
               rest extra
               (advance w (map Respond rs ++ Respond r :: rest)%list
                  (repeat (page_request (client_id c) u0 [("limit", page_size)])
                          (List.length fs + 1))
                  (map backoff (attempts 1 (List.length fs))))
               Hl Hp Ht eq_refl (run_collect _ _)).
    + rewrite advance_advance. cbn [List.concat app page_requests map].
      rewrite app_nil_r, repeat_app, <- !app_assoc. reflexivity.
    + rewrite length_app. lia.
Qed.

(** ** The pod projection as a whole *)

Lemma get2_field pod outer inner :
  absent_or_object pod outer = true ->
  get2 pod outer inner = Ok (field (field pod outer) inner).
Proof.
  destruct pod as [| | | | | kv]; try discriminate.
  unfold absent_or_object, get2, dict_get_default, dict_get. cbn [field].
  destruct (assoc outer kv) as [v |]; [| reflexivity].
  destruct v; try discriminate. reflexivity.
Qed.

Lemma statuses_status_object pod cs :
  container_statuses pod = Some cs -> absent_or_object pod "status" = true.
Proof.
  destruct pod as [| | | | | kv]; try discriminate.
  unfold container_statuses, absent_or_object.
  destruct (assoc "status" kv) as [v |]; [| reflexivity].
  destruct v; try discriminate. reflexivity.
Qed.

Lemma pod_info_project pod :
  well_shaped_pod pod = true -> pod_info pod = Ok (project_pod pod).
Proof.
  unfold well_shaped_pod. intros H. apply andb_true_iff in H as [Hm Hcs].
  destruct (container_statuses pod) as [cs |] eqn:E; [| discriminate].
  unfold pod_info, project_pod, ready_text.
  rewrite !(get2_field pod "metadata") by exact Hm.
  rewrite (ready_ratio_statuses pod cs E Hcs).
  rewrite (get2_field pod "status") by exact (statuses_status_object pod cs E).
  rewrite E. reflexivity.
Qed.

Lemma pods_loop_well_shaped pre : forall more acc,
  forallb well_shaped_pod pre = true ->
  pods_loop (pre ++ more) acc = pods_loop more (acc ++ map project_pod pre).
Proof.
  induction pre as [| pod pre IH]; intros more acc H; simpl.
  - now rewrite app_nil_r.
  - simpl in H. apply andb_true_iff in H as [Hp H].
    rewrite (pod_info_project pod Hp), (IH more _ H), <- app_assoc.
    reflexivity.
Qed.

(** X16: the projection of a pod list keeps every pod, in order: over pods
    shaped as the API gives them, each is projected into its name,
    namespace, ready text, phase and creation timestamp, an entry being
    [None] when the pod lacks it (the whole metadata or status included);
    a response without "items" projects to the empty list. *)
Theorem project_pods_well_shaped :
  forall kv,
    (forall items,
        assoc "items" kv = Some (JArr items) ->
        forallb well_shaped_pod items = true ->
        project_pods (JObj kv) = Ok (map project_pod items)) /\
    (assoc "items" kv = None -> project_pods (JObj kv) = Ok []).
Proof.
  intros kv. unfold project_pods, dict_get_default. split.
  - intros items Hi Hw. rewrite Hi. cbn [py_iter].
    rewrite <- (app_nil_r items) at 1.
    rewrite (pods_loop_well_shaped items [] [] Hw). reflexivity.
  - intros Hi. rewrite Hi. reflexivity.
Qed.

Lemma pod_info_bad pod :
  absent_or_object pod "metadata" && absent_or_object pod "status" = false ->
  pod_info pod = Raise (AttributeError "get").
Proof.
  intros H. unfold pod_info.
  destruct pod as [| | | | | kv]; try reflexivity.
  destruct (absent_or_object (JObj kv) "metadata") eqn:Hm.
  - rewrite !(get2_field (JObj kv) "metadata") by exact Hm.
    simpl in H. unfold absent_or_object in H.
    unfold ready_ratio, get2_list, dict_get_default.
    destruct (assoc "status" kv) as [v |]; [| discriminate].
    destruct v; try discriminate; reflexivity.
  - unfold absent_or_object in Hm. unfold get2, dict_get_default.
    destruct (assoc "metadata" kv) as [v |]; [| discriminate].
    destruct v; try discriminate; reflexivity.
Qed.

(** X17: the defaults of the pod projection cover a missing entry only: a
    pod whose "metadata" or "status" is there but is not an object (null,
    for one), or an item that is no object at all, makes [k8s_pods] fail
    with AttributeError for the whole list, wherever the pod stands in
    it. *)
Theorem project_pods_null_entry :
  forall kv pre bad post,
    assoc "items" kv = Some (JArr (pre ++ bad :: post)) ->
    forallb well_shaped_pod pre = true ->
    absent_or_object bad "metadata" && absent_or_object bad "status" = false ->
    project_pods (JObj kv) = Raise (AttributeError "get").
Proof.
  intros kv pre bad post Hi Hw Hbad.
  unfold project_pods, dict_get_default. rewrite Hi. cbn [py_iter].
  rewrite (pods_loop_well_shaped pre (bad :: post) [] Hw).
  cbn [pods_loop]. now rewrite (pod_info_bad bad Hbad).
Qed.

(** X18: [k8s_pods] for a reference taken for an id, from acquisition to
    projection: one GET through the proxy; a 2xx response gives the
    projection of its body, a body that is not JSON the JSONDecodeError,
    and any other status that is not retried the HTTPStatusError, never an
    empty list. *)
Theorem k8s_pods_by_id :
  forall fuel p c cluster namespace r rest,
    _client (fst (get_rancher p)) = Some c ->
    1 <= max_retries (fst (get_rancher p)) ->
    looks_like_id cluster = true ->
    retryable_status (status_code r) = false ->
    script (env p) = Respond r :: rest ->
    fst (k8s_pods fuel p cluster namespace) =
      Some (if is_success (status_code r)
            then match body r with
                 | Some j => project_pods j
                 | None => Raise JSONDecodeError
                 end
            else Raise (HTTPStatusError "raise_for_status" r)) /\
    requests (env (snd (k8s_pods fuel p cluster namespace))) =
      (requests (env p) ++
       [mkRequest (client_id c) "GET"
          (urljoin (base_url (fst (get_rancher p)) ++ "/")
             (("/k8s/clusters/" ++ cluster ++ "/") ++ pods_path namespace))
          None])%list /\
    script (env (snd (k8s_pods fuel p cluster namespace))) = rest /\
    sleeps (env (snd (k8s_pods fuel p cluster namespace))) = sleeps (env p).
Proof.
  intros fuel p c cluster namespace r rest Hc Hm Hid Hr Hs.
  assert (Henv : requests (env (snd (get_rancher p))) = requests (env p) /\
                 sleeps (env (snd (get_rancher p))) = sleeps (env p)).
  { unfold get_rancher. destruct (_rancher_singleton p); split; reflexivity. }
  destruct Henv as [Hreqs Hsl].
  pose proof (get_rancher_script p) as Hscript. rewrite Hs in Hscript.
  unfold k8s_pods, list_pods, resolve_cluster_id.
  unfold looks_like_id in Hid. rewrite Hid.
  destruct (get_rancher p) as [client p1]. cbn [fst snd] in *.
  unfold k8s_get, bind, lift, _request. rewrite Hc, pods_path_no_slash.
  destruct (Z.to_nat (max_retries client)) as [| n] eqn:E; [lia |].
  rewrite (request_attempts_return c "GET" _ None n 1 None r rest (env p1)
             Hr Hscript).
  unfold raise_for_status, resp_json.
  destruct (is_success (status_code r)); [destruct (body r) |];
    cbn [fst snd env advance requests script sleeps];
    rewrite Hreqs, Hsl, app_nil_r; repeat split.
Qed.

(** ** The settings *)

Lemma rstrip_slash_suffix s : exists k, s = rstrip_slash s ++ slashes k.
Proof.
  induction s as [| ch s [k IH]]; cbn [rstrip_slash].
  - now exists O.
  - destruct (rstrip_slash s) as [| a r] eqn:E.
    + destruct (Ascii.eqb_spec ch "/"%char) as [-> | Hne].
      * exists (Datatypes.S k). simpl in *. now rewrite <- IH.
      * exists k. simpl in *. now rewrite <- IH.
    + exists k. simpl in *. now rewrite <- IH.
Qed.

Lemma rstrip_slash_no_slash s : ends_with_slash (rstrip_slash s) = false.
Proof.
  induction s as [| ch s IH]; cbn [rstrip_slash]; [reflexivity |].
  destruct (rstrip_slash s) as [| a r] eqn:E.
  - destruct (Ascii.eqb_spec ch "/"%char) as [-> | Hne]; [reflexivity |].
    simpl. now apply Ascii.eqb_neq.
  - exact IH.
Qed.

Lemma rstrip_slashes k : rstrip_slash (slashes k) = "".
Proof. induction k as [| k IH]; simpl; [| rewrite IH]; reflexivity. Qed.

(** X19: settings that load are usable: the base URL is the value of
    RANCHER_URL without its trailing slashes, it is not empty and does not
    end with a slash, so that the client's [base_url + "/"] ends with
    exactly one; the token is the value of RANCHER_TOKEN and is not empty;
    the CA bundle is the variable as it is, unset included. *)
Theorem settings_loaded :
  forall py_float py_int e st,
    Settings_init py_float py_int e = inl st ->
    RANCHER_URL st <> "" /\
    ends_with_slash (RANCHER_URL st) = false /\
    (exists k, environ_get e "RANCHER_URL" "" = RANCHER_URL st ++ slashes k) /\
    RANCHER_TOKEN st = environ_get e "RANCHER_TOKEN" "" /\
    RANCHER_TOKEN st <> "" /\
    RANCHER_CA_BUNDLE st = e "RANCHER_CA_BUNDLE".
Proof.
  intros py_float py_int e st H. unfold Settings_init in H.
  destruct (py_float _) as [t |]; [| discriminate].
  destruct (py_int _) as [n |]; [| discriminate].
  destruct (String.eqb_spec (rstrip_slash (environ_get e "RANCHER_URL" "")) "")
    as [| Hu]; [discriminate |].
  destruct (String.eqb_spec (environ_get e "RANCHER_TOKEN" "") "")
    as [| Ht]; [discriminate |].
  simpl in H. injection H as <-. cbn [RANCHER_URL RANCHER_TOKEN RANCHER_CA_BUNDLE].
  repeat split; auto.
  - apply rstrip_slash_no_slash.
  - apply rstrip_slash_suffix.
Qed.

(** X20: settings do not load without a base URL and a token: when
    RANCHER_URL is unset, empty or made of slashes only, or RANCHER_TOKEN
    is unset or empty, [Settings()] raises; the error is the RuntimeError
    unless HTTP_TIMEOUT or MAX_RETRIES does not parse, whose ValueError
    comes first, HTTP_TIMEOUT before MAX_RETRIES. *)
Theorem settings_required :
  forall py_float py_int e,
    (exists k, environ_get e "RANCHER_URL" "" = slashes k) \/
    environ_get e "RANCHER_TOKEN" "" = "" ->
    Settings_init py_float py_int e =
    inr (match py_float (environ_get e "HTTP_TIMEOUT" "15") with
         | None => ConfigValueError "HTTP_TIMEOUT"
         | Some _ =>
             match py_int (environ_get e "MAX_RETRIES" "3") with
             | None => ConfigValueError "MAX_RETRIES"
             | Some _ =>
                 ConfigRuntimeError "RANCHER_URL and RANCHER_TOKEN must be set"
             end
         end).
Proof.
  intros py_float py_int e H. unfold Settings_init.
  destruct (py_float _) as [t |]; [| reflexivity].
  destruct (py_int _) as [n |]; [| reflexivity].
  destruct H as [[k Hk] | Ht].
  - rewrite Hk, rstrip_slashes. reflexivity.
  - rewrite Ht, orb_true_r. reflexivity.
Qed.

(** ** A page without items *)

(** X21: a page whose payload lacks "data", or holds null or an empty list
    there, counts as a page without items: when it has no next link either,
    the listing ends empty after its one request. *)
Theorem list_all_page_without_data :
  forall self c path page_size st kv next rest fuel w,
    _client self = Some c ->
    1 <= max_retries self ->
    is_success st = true ->
    truthy (field (JObj kv) "data") = false ->
    next_link (JObj kv) = Ok next ->
    truthy next = false ->
    script w = Respond (mkResponse st (Some (JObj kv))) :: rest ->
    (2 <= fuel)%nat ->
    list_all fuel self path page_size w =
    (Some (Ok (Continue [])),
     advance w rest
       [page_request (client_id c)
          (urljoin (base_url self ++ "/") (lstrip_slash path))
          [("limit", page_size)]] []).
Proof.
  intros self c path page_size st kv next rest fuel w
         Hc Hm Hst Hd Hn Ht Hs Hfuel.
  destruct fuel as [| [| fuel]]; try lia.
  unfold list_all, rancher_list_all. cbn [async_for].
  assert (Hg : gen_step self
                 (GenFetch (JStr (urljoin (base_url self ++ "/") (lstrip_slash path)))
                           [("limit", page_size)]) w =
               ((Resume, GenItems [] (JObj kv)),
                advance w rest
                  [page_request (client_id c)
                     (urljoin (base_url self ++ "/") (lstrip_slash path))
                     [("limit", page_size)]] [])).
  { unfold gen_step, fetch_page, bind, _request. rewrite Hc.
    destruct (Z.to_nat (max_retries self)) as [| n] eqn:E; [lia |].
    rewrite (request_attempts_return c "GET" _ _ n 1 None
               (mkResponse st (Some (JObj kv))) rest w
               (is_success_not_retryable st Hst) Hs).
    unfold lift, raise_for_status, resp_json. cbn [status_code body].
    rewrite Hst. unfold dict_get, dict_get_default.
    cbn [field] in Hd. unfold py_or. rewrite Hd. reflexivity. }
  rewrite Hg. cbn [gen_step]. rewrite Hn, Ht. reflexivity.
Qed.

End Client.

(** ** The statements on concrete runs *)

Lemma demo_pages_linked :
  linked_pages [demo_page1; demo_page2] [demo_items1; demo_items2]
               [demo_link2; demo_link3].
Proof.
  apply linked_cons.
  - exact (page_intro demo_items1 (JStr demo_link2) 200
             (page_json demo_items1 (Some demo_link2)) eq_refl eq_refl eq_refl).
  - discriminate.
  - apply linked_cons.
    + exact (page_intro demo_items2 (JStr demo_link3) 200
               (page_json demo_items2 (Some demo_link3)) eq_refl eq_refl eq_refl).
    + discriminate.
    + apply linked_nil.
Qed.

Lemma demo_page3_last : page_of demo_items3 JNull demo_page3.
Proof.
  exact (page_intro demo_items3 JNull 200 (page_json demo_items3 None)
           eq_refl eq_refl eq_refl).
Qed.

Lemma failures_503_retryable k :
  forallb retryable_failure (failures_503 k) = true.
Proof. induction k as [| k IH]; simpl; auto. Qed.

Lemma failures_503_snoc k l :
  (failures_503 (S k) ++ l)%list =
  (failures_503 k ++ Respond resp_503 :: l)%list.
Proof.
  unfold failures_503, resp_503.
  induction k as [| k IH]; [reflexivity |].
  change (repeat (Respond (mkResponse 503 None)) (S (S k)))
    with (Respond (mkResponse 503 None) ::
          repeat (Respond (mkResponse 503 None)) (S k)).
  cbn [app]. rewrite IH. reflexivity.
Qed.

(** Two failed attempts, then a response: it is returned after delays of
    0.25 and 0.5 seconds. *)
Lemma request_retry_then_success_witness :
  exists delays,
    _request demo_rancher "GET" (JStr "u") None
      (started_world [Respond resp_503; Fail (TransportError "timeout");
                      Respond (ok_json JNull); Respond resp_502]) =
    (Ok (ok_json JNull),
     mkWorld [Respond resp_502]
       [mkRequest 0 "GET" "u" None; mkRequest 0 "GET" "u" None;
        mkRequest 0 "GET" "u" None]
       delays 1 []) /\
    List.length delays = 2%nat /\
    (nth 0 delays 0 == 1 # 4)%Q /\ (nth 1 delays 0 == 1 # 2)%Q.
Proof.
  destruct (request_retry_then_success demo_rancher demo_client "GET" "u" None
              [Respond resp_503; Fail (TransportError "timeout")]
              (ok_json JNull) [Respond resp_502]
              (started_world [Respond resp_503; Fail (TransportError "timeout");
                              Respond (ok_json JNull); Respond resp_502])
              eq_refl eq_refl eq_refl ltac:(simpl; lia) ltac:(simpl; lia) eq_refl)
    as (delays & H1 & H2 & H3).
  exists delays. split; [exact H1 |]. split; [exact H2 |]. split.
  - eapply Qeq_trans; [apply (H3 0%nat); simpl; lia | reflexivity].
  - eapply Qeq_trans; [apply (H3 1%nat); simpl; lia | reflexivity].
Defined.

(** C1, the claim as it was stated fails: with a budget of 1026, after
    1025 failed attempts the response of attempt 1026 is never asked for:
    the delay of attempt 1025 cannot be computed and the call ends with
    OverflowError after 1024 delays. *)
Lemma request_overflow_before_success :
  fst (_request (retrying_rancher 1026) "GET" (JStr "u") None
         (started_world (failures_503 1025 ++ [Respond (ok_json JNull)]))) =
    Raise (OverflowError "int too large to convert to float") /\
  fst (_request (retrying_rancher 1026) "GET" (JStr "u") None
         (started_world (failures_503 1025 ++ [Respond (ok_json JNull)]))) <>
    Ok (ok_json JNull) /\
  List.length
    (sleeps (snd (_request (retrying_rancher 1026) "GET" (JStr "u") None
                    (started_world
                       (failures_503 1025 ++ [Respond (ok_json JNull)]))))) =
    1024%nat /\
  script (snd (_request (retrying_rancher 1026) "GET" (JStr "u") None
                 (started_world
                    (failures_503 1025 ++ [Respond (ok_json JNull)])))) =
    [Respond (ok_json JNull)].
Proof.
  rewrite (request_overflow (retrying_rancher 1026) demo_client "GET" "u" None
             (failures_503 1024) (Respond resp_503) [Respond (ok_json JNull)]
             (started_world (failures_503 1025 ++ [Respond (ok_json JNull)]))
             eq_refl (failures_503_retryable 1024) eq_refl
             (repeat_length _ 1024) ltac:(simpl; lia)
             (failures_503_snoc 1024 [Respond (ok_json JNull)])).
  cbn [fst snd advance sleeps script started_world].
  split; [reflexivity |]. split; [discriminate |]. split; [| reflexivity].
  rewrite length_app, length_map, attempts_length. reflexivity.
Qed.

(** Three failed attempts out of three: the third failure is raised. *)
Lemma request_exhausted_raises_last_witness :
  let w := started_world [Respond resp_503; Fail (TransportError "timeout");
                          Respond resp_502; Respond (ok_json JNull)] in
  fst (_request demo_rancher "GET" (JStr "u") None w) =
    Raise (HTTPStatusError "retryable status" resp_502) /\
  script (snd (_request demo_rancher "GET" (JStr "u") None w)) =
    [Respond (ok_json JNull)] /\
  requests (snd (_request demo_rancher "GET" (JStr "u") None w)) =
    [mkRequest 0 "GET" "u" None; mkRequest 0 "GET" "u" None;
     mkRequest 0 "GET" "u" None].
Proof.
  apply (request_exhausted_raises_last demo_rancher demo_client "GET" "u" None
           [Respond resp_503; Fail (TransportError "timeout")]
           (Respond resp_502) [Respond (ok_json JNull)]);
    try reflexivity.
  simpl. lia.
Defined.

(** C2, the claim as it was stated fails: with a budget of 1025 and 1025
    failed attempts the call does not raise the failure of the last
    attempt but the OverflowError of the delay of attempt 1025. *)
Lemma request_overflow_not_last_failure :
  fst (_request (retrying_rancher 1025) "GET" (JStr "u") None
         (started_world (failures_503 1025))) =
    Raise (OverflowError "int too large to convert to float") /\
  fst (_request (retrying_rancher 1025) "GET" (JStr "u") None
         (started_world (failures_503 1025))) <>
    Raise (failure_exc (Respond resp_503)) /\
  List.length
    (requests (snd (_request (retrying_rancher 1025) "GET" (JStr "u") None
                      (started_world (failures_503 1025))))) = 1025%nat.
Proof.
  assert (Hs : script (started_world (failures_503 1025)) =
               (failures_503 1024 ++ Respond resp_503 :: [])%list).
  { cbn [script started_world].
    rewrite <- (failures_503_snoc 1024 []), app_nil_r. reflexivity. }
  rewrite (request_overflow (retrying_rancher 1025) demo_client "GET" "u" None
             (failures_503 1024) (Respond resp_503) []
             (started_world (failures_503 1025))
             eq_refl (failures_503_retryable 1024) eq_refl
             (repeat_length _ 1024) ltac:(simpl; lia) Hs).
  cbn [fst snd advance requests started_world].
  split; [reflexivity |]. split; [discriminate |].
  rewrite length_app, repeat_length. reflexivity.
Qed.

(** A 404 is returned by the first attempt, with no delay. *)
Lemma request_returns_non_retryable_witness :
  _request demo_rancher "GET" (JStr "u") None
    (started_world [Respond resp_404; Respond (ok_json JNull)]) =
  (Ok resp_404,
   mkWorld [Respond (ok_json JNull)] [mkRequest 0 "GET" "u" None] [] 1 []).
Proof.
  apply (proj2 (request_returns_non_retryable demo_client "GET" "u" None
                  resp_404 [Respond (ok_json JNull)]
                  (started_world [Respond resp_404; Respond (ok_json JNull)])
                  eq_refl eq_refl) demo_rancher).
  - reflexivity.
  - simpl. lia.
Defined.

(** Three failed attempts out of three: three delays, of 0.25, 0.5 and 1
    second. *)
Lemma request_exhausted_delays_witness :
  let w := started_world [Respond resp_503; Fail (TransportError "timeout");
                          Respond resp_502; Respond (ok_json JNull)] in
  exists delays,
    sleeps (snd (_request demo_rancher "GET" (JStr "u") None w)) = delays /\
    List.length delays = 3%nat /\
    (nth 0 delays 0 == 1 # 4)%Q /\ (nth 1 delays 0 == 1 # 2)%Q /\
    (nth 2 delays 0 == 1)%Q /\ (List.last delays 0 == 1)%Q.
Proof.
  destruct (request_exhausted_delays demo_rancher demo_client "GET" "u" None
              [Respond resp_503; Fail (TransportError "timeout")]
              (Respond resp_502) [Respond (ok_json JNull)]
              (started_world [Respond resp_503; Fail (TransportError "timeout");
                              Respond resp_502; Respond (ok_json JNull)])
              eq_refl eq_refl eq_refl eq_refl ltac:(simpl; lia) eq_refl)
    as (delays & _ & Hs & Hl & Hn & Hlast).
  exists delays. split; [exact Hs |]. split; [exact Hl |].
  split; [eapply Qeq_trans; [apply (Hn 0%nat); simpl; lia | reflexivity] |].
  split; [eapply Qeq_trans; [apply (Hn 1%nat); simpl; lia | reflexivity] |].
  split; [eapply Qeq_trans; [apply (Hn 2%nat); simpl; lia | reflexivity] |].
  eapply Qeq_trans; [exact Hlast | reflexivity].
Defined.

(** C10, the claim as it was stated fails: with a budget of 1025 and 1025
    failed attempts only 1024 delays are slept, no delay follows the last
    attempt, and what is raised is the OverflowError. *)
Lemma request_overflow_one_delay_short :
  List.length
    (sleeps (snd (_request (retrying_rancher 1025) "GET" (JStr "u") None
                    (started_world (failures_503 1025))))) = 1024%nat /\
  Z.to_nat (max_retries (retrying_rancher 1025)) = 1025%nat /\
  fst (_request (retrying_rancher 1025) "GET" (JStr "u") None
         (started_world (failures_503 1025))) =
    Raise (OverflowError "int too large to convert to float").
Proof.
  assert (Hs : script (started_world (failures_503 1025)) =
               (failures_503 1024 ++ Respond resp_503 :: [])%list).
  { cbn [script started_world].
    rewrite <- (failures_503_snoc 1024 []), app_nil_r. reflexivity. }
  rewrite (request_overflow (retrying_rancher 1025) demo_client "GET" "u" None
             (failures_503 1024) (Respond resp_503) []
             (started_world (failures_503 1025))
             eq_refl (failures_503_retryable 1024) eq_refl
             (repeat_length _ 1024) ltac:(simpl; lia) Hs).
  cbn [fst snd advance sleeps started_world].
  split; [| split; reflexivity].
  rewrite length_app, length_map, attempts_length. reflexivity.
Qed.

(** Three pages, the third without a link: the items of all three, in
    order, after three requests. *)
Lemma list_all_concatenates_witness :
  list_all simple_join 20 demo_rancher "/v3/clusters" 100
    (started_world [Respond demo_page1; Respond demo_page2; Respond demo_page3;
                    Respond demo_pods]) =
  (Some (Ok (Continue (demo_items1 ++ demo_items2 ++ demo_items3)%list)),
   mkWorld [Respond demo_pods]
     [mkRequest 0 "GET" "https://rancher.example.com/v3/clusters"
                (Some [("limit", 100)]);
      mkRequest 0 "GET" demo_link2 (Some []);
      mkRequest 0 "GET" demo_link3 (Some [])]
     [] 1 []).
Proof.
  apply (list_all_concatenates simple_join demo_rancher demo_client
           "/v3/clusters" 100 [demo_page1; demo_page2]
           [demo_items1; demo_items2] [demo_link2; demo_link3]
           demo_items3 JNull demo_page3 [Respond demo_pods] 20%nat
           (started_world [Respond demo_page1; Respond demo_page2;
                           Respond demo_page3; Respond demo_pods])).
  - reflexivity.
  - simpl. lia.
  - exact demo_pages_linked.
  - exact demo_page3_last.
  - reflexivity.
  - reflexivity.
  - vm_compute. lia.
Defined.

(** C4, the claim as it was stated fails: the first cluster named "prod" has
    no id, and resolution returns the id of the second one, not the first
    one's; and when the only cluster named "prod" has no id, resolution
    fails although the listing holds a match. *)
Lemma resolve_first_match_without_id :
  names_match "prod" prod_without_id = true /\
  fst (resolve_cluster_id simple_join 20 demo_rancher "prod"
         (started_world [Respond demo_page_two_prods])) =
    Some (Ok (JStr "c-abc12")) /\
  fst (resolve_cluster_id simple_join 20 demo_rancher "prod"
         (started_world [Respond demo_page_two_prods])) <>
    Some (Ok (field prod_without_id "id")) /\
  fst (resolve_cluster_id simple_join 20 demo_rancher "prod"
         (started_world [Respond demo_page_prod_no_id])) =
    Some (Raise (ValueError "Cluster not found: prod")).
Proof.
  repeat split; try reflexivity. discriminate.
Qed.

(** "prod" is found on the second page: its id is returned and the third
    page is not fetched. *)
Lemma resolve_cluster_id_first_with_id_witness :
  resolve_cluster_id simple_join 20 demo_rancher "prod"
    (started_world [Respond demo_page1; Respond demo_page2; Respond demo_page3]) =
  (Some (Ok (JStr "c-abc12")),
   mkWorld [Respond demo_page3]
     [mkRequest 0 "GET" "https://rancher.example.com/v3/clusters"
                (Some [("limit", 100)]);
      mkRequest 0 "GET" demo_link2 (Some [])]
     [] 1 []).
Proof.
  apply (proj1 (proj2 (resolve_cluster_id_first_with_id simple_join
                         demo_rancher "prod"))
           demo_client [demo_page1] [demo_items1] [demo_link2]
           [] (cluster "c-abc12" "prod") [cluster "c-bbb02" "staging"]
           (JStr demo_link3) demo_page2 [Respond demo_page3] 20%nat
           (started_world [Respond demo_page1; Respond demo_page2;
                           Respond demo_page3])).
  - reflexivity.
  - simpl. lia.
  - reflexivity.
  - apply linked_cons.
    + exact (page_intro demo_items1 (JStr demo_link2) 200
               (page_json demo_items1 (Some demo_link2)) eq_refl eq_refl eq_refl).
    + discriminate.
    + apply linked_nil.
  - exact (page_intro demo_items2 (JStr demo_link3) 200
             (page_json demo_items2 (Some demo_link3)) eq_refl eq_refl eq_refl).
  - reflexivity.
  - reflexivity.
  - reflexivity.
  - reflexivity.
  - vm_compute. lia.
Defined.

(** C5, the claim as it was stated fails: with the empty string supplied as
    namespace the request goes to api/v1/pods, not to
    api/v1/namespaces//pods. *)
Lemma list_pods_empty_namespace :
  requests (snd (list_pods simple_join no_repr 20 demo_rancher "c-abc12"
                   (Some "") (started_world [Respond demo_pods]))) =
    [mkRequest 0 "GET"
       "https://rancher.example.com/k8s/clusters/c-abc12/api/v1/pods" None] /\
  requests (snd (list_pods simple_join no_repr 20 demo_rancher "c-abc12"
                   (Some "") (started_world [Respond demo_pods]))) <>
    [mkRequest 0 "GET"
       "https://rancher.example.com/k8s/clusters/c-abc12/api/v1/namespaces//pods"
       None].
Proof.
  split; [reflexivity | discriminate].
Qed.

(** "prod" is resolved over two pages, then the pods of the namespace
    "default" are requested through the proxy of c-abc12. *)
Lemma list_pods_request_witness :
  exists k,
    (1 <= k <= 3)%nat /\
    requests (snd (list_pods simple_join no_repr 20 demo_rancher "prod"
                     (Some "default")
                     (started_world [Respond demo_page1; Respond demo_page2;
                                     Respond demo_pods]))) =
    ([mkRequest 0 "GET" "https://rancher.example.com/v3/clusters"
                (Some [("limit", 100)]);
      mkRequest 0 "GET" demo_link2 (Some [])] ++
     repeat (mkRequest 0 "GET"
               "https://rancher.example.com/k8s/clusters/c-abc12/api/v1/namespaces/default/pods"
               None) k)%list.
Proof.
  destruct (proj1 (list_pods_request simple_join no_repr 20%nat demo_rancher
                     demo_client "prod" (Some "default")
                     (started_world [Respond demo_page1; Respond demo_page2;
                                     Respond demo_pods])
                     eq_refl ltac:(simpl; lia))
              (JStr "c-abc12")
              (mkWorld [Respond demo_pods]
                 [mkRequest 0 "GET" "https://rancher.example.com/v3/clusters"
                            (Some [("limit", 100)]);
                  mkRequest 0 "GET" demo_link2 (Some [])]
                 [] 1 [])
              eq_refl) as [_ H].
  exact H.
Defined.

(** Two of three containers ready. *)
Lemma pod_ready_ratio_witness :
  ready_ratio pod_two_of_three =
  Ok (str_of_nat 2 ++ "/" ++ str_of_nat 3).
Proof.
  apply (proj1 pod_ready_ratio pod_two_of_three
           [container true; container false; container true]);
    reflexivity.
Defined.

(** Three pages of clusters listed from a process that has no client yet;
    the last record has a name only. *)
Lemma rancher_clusters_projects_witness :
  fst (rancher_clusters simple_join 20
         (initial_process [Respond demo_page1; Respond demo_page2;
                           Respond demo_page3])) =
  Some (Ok [JObj [("id", JStr "c-aaa01"); ("name", JStr "dev");
                  ("displayName", JNull); ("state", JStr "active");
                  ("version", JNull)];
            JObj [("id", JStr "c-abc12"); ("name", JStr "prod");
                  ("displayName", JNull); ("state", JStr "active");
                  ("version", JNull)];
            JObj [("id", JStr "c-bbb02"); ("name", JStr "staging");
                  ("displayName", JNull); ("state", JStr "active");
                  ("version", JNull)];
            JObj [("id", JNull); ("name", JStr "bare");
                  ("displayName", JNull); ("state", JNull);
                  ("version", JNull)]]).
Proof.
  apply (rancher_clusters_projects simple_join 20%nat
           (initial_process [Respond demo_page1; Respond demo_page2;
                             Respond demo_page3])
           demo_client [demo_page1; demo_page2] [demo_items1; demo_items2]
           [demo_link2; demo_link3] demo_items3 JNull demo_page3 []).
  - reflexivity.
  - simpl. lia.
  - exact demo_pages_linked.
  - exact demo_page3_last.
  - reflexivity.
  - reflexivity.
  - reflexivity.
  - vm_compute. lia.
Defined.

(** C8, the claim as it was stated fails: the projection has no field
    kubernetesVersion, the version is stored under "version"; and a
    kubernetesVersion at the top of the cluster record is not projected. *)
Lemma cluster_info_version_field :
  cluster_info cluster_rke_version =
    Ok (JObj [("id", JStr "c-aaa01"); ("name", JNull); ("displayName", JNull);
              ("state", JNull); ("version", JStr "v1.27.1")]) /\
  cluster_info cluster_rke_version <>
    Ok (stated_cluster_record cluster_rke_version) /\
  cluster_info cluster_top_level_version =
    Ok (JObj [("id", JStr "c-aaa01"); ("name", JNull); ("displayName", JNull);
              ("state", JNull); ("version", JNull)]) /\
  cluster_info cluster_top_level_version <>
    Ok (stated_cluster_record cluster_top_level_version).
Proof. repeat split; discriminate. Qed.

(** Starting a started client changes nothing. *)
Lemma start_idempotent_witness :
  start demo_rancher (started_world []) = (demo_rancher, started_world []).
Proof.
  apply (proj1 (start_idempotent demo_rancher (started_world [])
                  (initial_process [])) demo_client).
  reflexivity.
Defined.

(** ** The further statements on concrete runs *)

Lemma demo_page1_linked :
  linked_pages [demo_page1] [demo_items1] [demo_link2].
Proof.
  apply linked_cons.
  - exact (page_intro demo_items1 (JStr demo_link2) 200
             (page_json demo_items1 (Some demo_link2)) eq_refl eq_refl eq_refl).
  - discriminate.
  - apply linked_nil.
Qed.

(** A 503, a 500 and a 200 against a budget of three. *)
Lemma request_bounded_witness :
  let w := started_world [Respond resp_503; Respond resp_502;
                          Respond (ok_json JNull)] in
  exists k j consumed,
    (k <= 3)%nat /\ (j <= k <= j + 1)%nat /\
    (List.length consumed <= k)%nat /\
    script w =
      (consumed ++ script (snd (_request demo_rancher "GET" (JStr "u") None w)))%list /\
    snd (_request demo_rancher "GET" (JStr "u") None w) =
      advance w (script (snd (_request demo_rancher "GET" (JStr "u") None w)))
        (repeat (mkRequest 0 "GET" "u" None) k)
        (map backoff (attempts 1 j)).
Proof.
  exact (request_bounded demo_rancher demo_client "GET" "u" None
           (started_world [Respond resp_503; Respond resp_502;
                           Respond (ok_json JNull)]) eq_refl).
Defined.

(** The 404 that follows a 503 is returned; the 503 is not. *)
Lemma request_returns_from_script_witness :
  retryable_status (status_code resp_404) = false /\
  In (Respond resp_404) [Respond resp_503; Respond resp_404].
Proof.
  exact (request_returns_from_script demo_rancher "GET" (JStr "u") None
           (started_world [Respond resp_503; Respond resp_404]) resp_404
           eq_refl).
Defined.

(** An error of another kind on the second attempt. *)
Lemma request_propagates_uncaught_witness :
  _request demo_rancher "GET" (JStr "u") None
    (started_world [Respond resp_503; Fail (OtherError "boom");
                    Respond (ok_json JNull)]) =
  (Raise (OtherError "boom"),
   mkWorld [Respond (ok_json JNull)]
     [mkRequest 0 "GET" "u" None; mkRequest 0 "GET" "u" None]
     [1 # 4] 1 []).
Proof.
  apply (request_propagates_uncaught demo_rancher demo_client "GET" "u" None
           [Respond resp_503] (OtherError "boom") [Respond (ok_json JNull)]);
    try reflexivity; simpl; lia.
Defined.

(** Listing on a closed client. *)
Lemma closed_client_refuses_witness :
  list_all simple_join 1 (fst (close demo_rancher (started_world [])))
    "/v3/clusters" 100 (started_world [Respond demo_page3]) =
  (Some (Raise (AssertionError "Client not started")),
   started_world [Respond demo_page3]).
Proof.
  apply (proj2 (proj2 (proj2
           (closed_client_refuses simple_join no_repr demo_rancher
              (started_world []) (started_world [Respond demo_page3]))))).
  lia.
Defined.

(** A new instance started, closed and started again. *)
Lemma restart_makes_fresh_client_witness :
  let self := init "https://rancher.example.com" "tok123" None (15 # 1) 3 in
  let w := mkWorld [] [] [] 0 [] in
  fst (close (fst (start self w)) (snd (start self w))) = self /\
  clients_closed (snd (close (fst (start self w)) (snd (start self w)))) = [0%nat].
Proof.
  destruct (restart_makes_fresh_client
              (init "https://rancher.example.com" "tok123" None (15 # 1) 3)
              (mkWorld [] [] [] 0 []) eq_refl) as (H1 & H2 & _).
  split; [exact H1 | exact H2].
Defined.

(** Closing the started singleton closes client 0. *)
Lemma aclose_rancher_then_get_witness :
  clients_closed (env (aclose_rancher (started_process []))) = [0%nat].
Proof.
  destruct (aclose_rancher_then_get (started_process [])) as (_ & _ & _ & H & _).
  exact (H demo_rancher demo_client eq_refl eq_refl).
Defined.

(** The tools run from a process without singleton. *)
Lemma tools_keep_singleton_witness :
  singleton_started
    (snd (rancher_clusters simple_join 20
            (initial_process [Respond demo_page3]))) = true /\
  singleton_started
    (snd (k8s_pods simple_join no_repr 20
            (initial_process [Respond demo_page3]) "prod" None)) = true.
Proof.
  destruct (tools_keep_singleton simple_join no_repr 20%nat
              (initial_process [Respond demo_page3]) "prod" None eq_refl)
    as (_ & _ & H1 & H2 & _).
  split; [exact H1 | exact H2].
Defined.

(** A budget of zero. *)
Lemma tools_without_attempts_witness :
  fst (rancher_clusters simple_join 20 (no_retry_process [Respond demo_page3])) =
    Some (Raise (AssertionError "")) /\
  fst (k8s_pods simple_join no_repr 20 (no_retry_process [Respond demo_page3])
         "c-abc12" None) =
    Some (Raise (AssertionError "")).
Proof.
  destruct (tools_without_attempts simple_join no_repr 20%nat
              (no_retry_process [Respond demo_page3]) demo_client "c-abc12" None
              eq_refl ltac:(simpl; lia) ltac:(lia))
    as (H1 & H2 & _).
  split; [exact H1 | exact H2].
Defined.

(** A 404 on a plain GET. *)
Lemma get_outcomes_witness :
  rancher_get simple_join demo_rancher "/v3/settings" None
    (started_world [Respond resp_404]) =
  (Raise (HTTPStatusError "raise_for_status" resp_404),
   mkWorld []
     [mkRequest 0 "GET" "https://rancher.example.com/v3/settings" None]
     [] 1 []).
Proof.
  apply (proj1 (get_outcomes simple_join no_repr demo_rancher demo_client
                  resp_404 [] (started_world [Respond resp_404])
                  eq_refl ltac:(simpl; lia) eq_refl eq_refl)).
Defined.

(** A display name with a colon is taken for an id. *)
Lemma looks_like_id_iff_witness : looks_like_id "team:prod" = true.
Proof.
  apply (proj2 (looks_like_id_iff "team:prod")).
  left. exists "team", "prod". reflexivity.
Defined.

(** Pods of "team:prod": the clusters are not listed. *)
Lemma list_pods_id_skips_listing_witness :
  exists k,
    (1 <= k <= 3)%nat /\
    requests (snd (list_pods simple_join no_repr 20 demo_rancher "team:prod" None
                     (started_world [Respond demo_page1; Respond demo_pods]))) =
    ([] ++
     repeat (mkRequest 0 "GET"
               "https://rancher.example.com/k8s/clusters/team:prod/api/v1/pods"
               None) k)%list.
Proof.
  exact (list_pods_id_skips_listing simple_join no_repr 20%nat demo_rancher
           demo_client "team:prod" None
           (started_world [Respond demo_page1; Respond demo_pods])
           eq_refl ltac:(simpl; lia) eq_refl).
Defined.

(** The second page of clusters is a 404. *)
Lemma rancher_clusters_fails_whole_witness :
  fst (rancher_clusters simple_join 20
         (initial_process [Respond demo_page1; Respond resp_404])) =
  Some (Raise (HTTPStatusError "raise_for_status" resp_404)).
Proof.
  apply (rancher_clusters_fails_whole simple_join 20%nat
           (initial_process [Respond demo_page1; Respond resp_404])
           demo_client [demo_page1] [demo_items1] [demo_link2] resp_404 []).
  - reflexivity.
  - simpl. lia.
  - exact demo_page1_linked.
  - reflexivity.
  - reflexivity.
  - reflexivity.
  - vm_compute. lia.
Defined.

(** "prod" is not on the first page and the second page is a 404. *)
Lemma resolve_reports_listing_error_witness :
  fst (resolve_cluster_id simple_join 20 demo_rancher "prod"
         (started_world [Respond demo_page1; Respond resp_404])) =
  Some (Raise (HTTPStatusError "raise_for_status" resp_404)).
Proof.
  destruct (resolve_reports_listing_error simple_join no_repr 20%nat
              demo_rancher demo_client "prod" None [demo_page1] [demo_items1]
              [demo_link2] resp_404 []
              (started_world [Respond demo_page1; Respond resp_404])
              eq_refl ltac:(simpl; lia) eq_refl demo_page1_linked eq_refl
              eq_refl eq_refl eq_refl ltac:(vm_compute; lia)) as [H _].
  now rewrite H.
Defined.

(** A 503 before the first of three pages. *)
Lemma list_all_after_retries_witness :
  list_all simple_join 20 demo_rancher "/v3/clusters" 100
    (started_world [Respond resp_503; Respond demo_page1; Respond demo_page2;
                    Respond demo_page3]) =
  (Some (Ok (Continue (demo_items1 ++ demo_items2 ++ demo_items3)%list)),
   mkWorld []
     [mkRequest 0 "GET" "https://rancher.example.com/v3/clusters"
                (Some [("limit", 100)]);
      mkRequest 0 "GET" "https://rancher.example.com/v3/clusters"
                (Some [("limit", 100)]);
      mkRequest 0 "GET" demo_link2 (Some []);
      mkRequest 0 "GET" demo_link3 (Some [])]
     [1 # 4] 1 []).
Proof.
  apply (list_all_after_retries simple_join demo_rancher demo_client
           "/v3/clusters" 100 [Respond resp_503] [demo_page1; demo_page2]
           [demo_items1; demo_items2] [demo_link2; demo_link3]
           demo_items3 JNull demo_page3 [] 20%nat
           (started_world [Respond resp_503; Respond demo_page1;
                           Respond demo_page2; Respond demo_page3])).
  - reflexivity.
  - exact demo_pages_linked.
  - exact demo_page3_last.
  - reflexivity.
  - reflexivity.
  - simpl. lia.
  - simpl. lia.
  - reflexivity.
  - vm_compute. lia.
Defined.

(** Three pods, the last without status. *)
Lemma project_pods_well_shaped_witness :
  project_pods
    (JObj [("items", JArr [pod_two_of_three; pod_no_statuses; pod_no_status])]) =
  Ok [project_pod pod_two_of_three; project_pod pod_no_statuses;
      project_pod pod_no_status].
Proof.
  apply (proj1 (project_pods_well_shaped
                  [("items", JArr [pod_two_of_three; pod_no_statuses;
                                   pod_no_status])])
           [pod_two_of_three; pod_no_statuses; pod_no_status]);
    reflexivity.
Defined.

(** A pod with a null status behind a sound one. *)
Lemma project_pods_null_entry_witness :
  project_pods
    (JObj [("items", JArr [pod_two_of_three; pod_null_status; pod_no_status])]) =
  Raise (AttributeError "get").
Proof.
  apply (project_pods_null_entry
           [("items", JArr [pod_two_of_three; pod_null_status; pod_no_status])]
           [pod_two_of_three] pod_null_status [pod_no_status]);
    reflexivity.
Defined.

(** Pods of c-abc12 from a process without singleton; the server answers
    404. *)
Lemma k8s_pods_by_id_witness :
  fst (k8s_pods simple_join no_repr 0 (initial_process [Respond resp_404])
         "c-abc12" (Some "default")) =
  Some (Raise (HTTPStatusError "raise_for_status" resp_404)).
Proof.
  destruct (k8s_pods_by_id simple_join no_repr 0%nat
              (initial_process [Respond resp_404]) demo_client "c-abc12"
              (Some "default") resp_404 []
              eq_refl ltac:(simpl; lia) eq_refl eq_refl eq_refl) as [H _].
  exact H.
Defined.

(** The URL of the environment loses its two slashes. *)
Lemma settings_loaded_witness :
  RANCHER_URL demo_settings <> "" /\
  ends_with_slash (RANCHER_URL demo_settings) = false.
Proof.
  destruct (settings_loaded demo_float demo_int demo_environ demo_settings
              eq_refl) as (H1 & H2 & _).
  split; [exact H1 | exact H2].
Defined.

(** Nothing set. *)
Lemma settings_required_witness :
  Settings_init demo_float demo_int empty_environ =
  inr (ConfigRuntimeError "RANCHER_URL and RANCHER_TOKEN must be set").
Proof.
  apply (settings_required demo_float demo_int empty_environ).
  left. exists O. reflexivity.
Defined.

(** A page without "data" and without links. *)
Lemma list_all_page_without_data_witness :
  list_all simple_join 2 demo_rancher "v3/clusters" 100
    (started_world [Respond page_without_data]) =
  (Some (Ok (Continue [])),
   mkWorld []
     [mkRequest 0 "GET" "https://rancher.example.com/v3/clusters"
                (Some [("limit", 100)])]
     [] 1 []).
Proof.
  apply (list_all_page_without_data simple_join demo_rancher demo_client
           "v3/clusters" 100 200 [("type", JStr "collection")] JNull []
           2%nat (started_world [Respond page_without_data]));
    try reflexivity.
  simpl. lia.
Defined.
